(** * Daily postback settlement: timer, cron and admin trigger paths

    A shallow embedding of the settlement engine in its four copies:
    [executeDailyPostback] of [lib/scheduler.js] with the timer entry point
    [checkAndRunDailyPostback], [executeDailyPostback] and
    [checkIfAlreadyRanToday] of [pages/api/cron/daily-postback.js],
    [executeDailyPostback] of [pages/api/admin/manual-daily-postback.js] and
    [executeForcedDailyPostback] of [pages/api/admin/force-daily-check.js].
    The handlers of the three routes (method and user-agent checks, status
    codes, response bodies) are embedded after the engines.

    The JavaScript is asynchronous and effectful.  Every [await] on the store or
    on the network is one step of a small state-and-exception monad [M]: the
    state is the store (three tables) plus the module variable [lastDailyRun],
    the environment [Env] decides, step by step, what the store and the network
    answer, and every step leaves one [Event] in the log of the invocation. *)

From Stdlib Require Import String Ascii List ZArith Arith Bool Lia.
From Stdlib Require Import DecimalString.
Import ListNotations.
Local Open Scope string_scope.

(* ===================================================================== *)
(** ** JavaScript values used by the code *)
(* ===================================================================== *)

(** [String(n)] for a non-negative integer. *)
Definition natToString (n : nat) : string :=
  NilZero.string_of_uint (Nat.to_uint n).

(** [s.padStart(2, '0')]. *)
Definition padStart2 (s : string) : string :=
  match s with
  | EmptyString => "00"
  | String c EmptyString => String "0" (String c EmptyString)
  | _ => s
  end.

(** Amounts are decimals with two fractional digits (the store sums a
    two-digit decimal column); an amount is kept as its number of hundredths,
    so 42.50 is [4250]. *)
Definition Amount := Z.

(** [x.toFixed(2)], for amounts far below 1e21 (see [printsAsDecimal]). *)
Definition toFixed2 (x : Amount) : string :=
  let a := Z.to_nat (Z.abs x) in
  (if (x <? 0)%Z then "-" else EmptyString)
    ++ natToString (a / 100) ++ "." ++ padStart2 (natToString (a mod 100)).

(** [String(x)]: the shortest decimal, so 42.50 prints as 42.5 and 10.00 as 10
    (for amounts far below 1e21, where JavaScript switches to exponents; the
    range is [printsAsDecimal] below). *)
Definition numberToString (x : Amount) : string :=
  let a := Z.to_nat (Z.abs x) in
  let f := a mod 100 in
  (if (x <? 0)%Z then "-" else EmptyString)
    ++ natToString (a / 100)
    ++ (if (f =? 0)%nat then EmptyString
        else "." ++ (if (f mod 10 =? 0)%nat then natToString (f / 10)
                     else padStart2 (natToString f))).

Definition hexDigit (n : nat) : ascii :=
  nth n (list_ascii_of_string "0123456789ABCDEF") "0"%char.

(** The characters [encodeURIComponent] leaves alone: letters, digits and
    [- _ . ! ~ * ' ( )]. *)
Definition uriUnreserved (c : ascii) : bool :=
  let n := nat_of_ascii c in
  ((65 <=? n)%nat && (n <=? 90)%nat) || ((97 <=? n)%nat && (n <=? 122)%nat)
  || ((48 <=? n)%nat && (n <=? 57)%nat)
  || existsb (Nat.eqb n) [45; 95; 46; 33; 126; 42; 39; 40; 41].

(** [encodeURIComponent(s)], on a string held as its UTF-8 bytes: every other
    byte becomes [%XX]. *)
Fixpoint encodeURIComponent (s : string) : string :=
  match s with
  | EmptyString => EmptyString
  | String c rest =>
      if uriUnreserved c then String c (encodeURIComponent rest)
      else
        let n := nat_of_ascii c in
        String "%" (String (hexDigit (n / 16)) (String (hexDigit (n mod 16))
          (encodeURIComponent rest)))
  end.

(** [a || b] on a possibly-undefined string: [undefined] and the empty string
    are falsy. *)
Definition orElse (a : option string) (b : string) : string :=
  match a with
  | Some (String c s) => String c s
  | _ => b
  end.

(** What an awaited call comes back with: a value, or a thrown [Error] (kept
    as its [message]). *)
Inductive Outcome (A : Type) : Type :=
| Returned (a : A)
| Thrown (message : string).
Arguments Returned {A} a.
Arguments Thrown {A} message.

(** The current time rendered in America/New_York, [nyTime] in the code. *)
Record Clock := {
  toDateString : string;
  getHours : nat;
  getMinutes : nat;
  toISOString : string;
  toLocaleString : string
}.

(** The object literals the entry points return; an absent key is [None]. *)
Record Result := {
  success : option bool;
  message : option string;
  totalAmount : option Amount;
  clearedEntries : option nat;
  clickidUsed : option string;
  error : option string;
  skipped : option bool;
  reason : option string;
  nyTime : option string
}.

(* ===================================================================== *)
(** ** The store *)
(* ===================================================================== *)

(** A row of [cached_conversions]: one PendingRecord. *)
Record CachedConversion := {
  cc_clickid : string;
  cc_amount : Amount;
  cc_created_at : nat
}.

(** The argument of [logConversion]. *)
Record LogData := {
  clickid : string;
  action : string;
  cached_amount : option Amount;
  total_sent : option Amount;
  log_message : string
}.

(** A row of [conversion_logs]: an AuditEntry, dated by the store. *)
Record ConversionLog := {
  log_data : LogData;
  log_date : nat
}.

(** A row of [postback_history]: a SettlementAttempt, the six arguments of
    [logPostback]. *)
Record Postback := {
  pb_clickid : string;
  pb_amount : Amount;
  pb_url : string;
  pb_success : bool;
  pb_response : string;
  pb_error : option string
}.

(** The three tables, the store's calendar date ([CURDATE()]), and the module
    variable [lastDailyRun] of [lib/scheduler.js] ([null] is [None]). *)
Record World := {
  cached_conversions : list CachedConversion;
  conversion_logs : list ConversionLog;
  postback_history : list Postback;
  curdate : nat;
  lastDailyRun : option string
}.

Definition set_cached (w : World) (l : list CachedConversion) : World :=
  {| cached_conversions := l; conversion_logs := conversion_logs w;
     postback_history := postback_history w; curdate := curdate w;
     lastDailyRun := lastDailyRun w |}.

Definition set_logs (w : World) (l : list ConversionLog) : World :=
  {| cached_conversions := cached_conversions w; conversion_logs := l;
     postback_history := postback_history w; curdate := curdate w;
     lastDailyRun := lastDailyRun w |}.

Definition set_history (w : World) (l : list Postback) : World :=
  {| cached_conversions := cached_conversions w;
     conversion_logs := conversion_logs w;
     postback_history := l; curdate := curdate w;
     lastDailyRun := lastDailyRun w |}.

Definition set_lastDailyRun (w : World) (d : option string) : World :=
  {| cached_conversions := cached_conversions w;
     conversion_logs := conversion_logs w;
     postback_history := postback_history w; curdate := curdate w;
     lastDailyRun := d |}.

(* ===================================================================== *)
(** ** The environment of one invocation *)
(* ===================================================================== *)

(** What [fetch] comes back with: a rejection (transport error or timeout), or
    a response with its status and what [response.text()] gives. *)
Inductive FetchOutcome :=
| NetworkError (message : string)
| HttpResponse (status : nat) (text : Outcome string).

(** [response.ok]: the status is in 200..299. *)
Definition response_ok (status : nat) : bool :=
  (200 <=? status)%nat && (status <=? 299)%nat.

(** One step is one awaited call.  At step [k] the environment says which
    pending records the ingestion flow inserted since the step before
    ([arrivals]), whether the store is unavailable ([storeFault], with the
    error it raises), and how the network answers a request ([network]).
    [now] is what rendering the current time in America/New_York gives: the
    time, or the [RangeError] of a runtime without that time zone. *)
Record Env := {
  now : Outcome Clock;
  arrivals : nat -> list CachedConversion;
  storeFault : nat -> option string;
  network : nat -> string -> FetchOutcome
}.

(** The log of an invocation, one event per awaited call, oldest first. *)
Inductive Event :=
| EvCountRuns (r : Outcome nat)
| EvGetGlobalCachedTotal (r : Outcome Amount)
| EvSelectClickid (r : Outcome (option string))
| EvLogConversion (d : LogData) (written : bool)
| EvFetch (url : string) (r : FetchOutcome)
| EvLogPostback (p : Postback) (written : bool)
| EvClearAll (r : Outcome nat).

(* ===================================================================== *)
(** ** The monad of [async] functions *)
(* ===================================================================== *)

Definition State : Type := World * list Event.

(** How many steps an invocation has taken: one per event in its log. *)
Fixpoint steps (evs : list Event) : nat :=
  match evs with
  | [] => 0
  | _ :: rest => S (steps rest)
  end.

(** The log with one more event at its end. *)
Fixpoint snoc (evs : list Event) (e : Event) : list Event :=
  match evs with
  | [] => [e]
  | x :: rest => x :: snoc rest e
  end.

Definition M (A : Type) : Type := Env -> State -> Outcome A * State.

Definition ret {A} (a : A) : M A := fun _ s => (Returned a, s).

Definition throw {A} (msg : string) : M A := fun _ s => (Thrown msg, s).

Definition bind {A B} (m : M A) (k : A -> M B) : M B :=
  fun env s =>
    match m env s with
    | (Returned a, s') => k a env s'
    | (Thrown msg, s') => (Thrown msg, s')
    end.

(** [try { m } catch (error) { h(error.message) }]: what [m] did to the state
    before it threw stays done. *)
Definition try_catch {A} (m : M A) (h : string -> M A) : M A :=
  fun env s =>
    match m env s with
    | (Returned a, s') => (Returned a, s')
    | (Thrown msg, s') => h msg env s'
    end.

Declare Scope js_scope.
Delimit Scope js_scope with js.
Notation "x <- m ;; k" := (bind m (fun x => k))
  (at level 61, m at next level, right associativity) : js_scope.
Notation "m ;; k" := (bind m (fun _ => k))
  (at level 61, right associativity) : js_scope.
Local Open Scope js_scope.

(** Running an invocation: it starts with an empty event log. *)
Definition run {A} (m : M A) (env : Env) (w : World)
  : Outcome A * World * list Event :=
  match m env (w, []) with
  | (o, (w', evs)) => (o, w', evs)
  end.

(** [new Date(now.toLocaleString("en-US", {timeZone: "America/New_York"}))]. *)
Definition getNow : M Clock :=
  fun env s =>
    match now env with
    | Returned nyTime => (Returned nyTime, s)
    | Thrown msg => (Thrown msg, s)
    end.

Definition getLastDailyRun : M (option string) :=
  fun _ s => (Returned (lastDailyRun (fst s)), s).

Definition setLastDailyRun (d : string) : M unit :=
  fun _ s => (Returned tt, (set_lastDailyRun (fst s) (Some d), snd s)).

(** The store as one step begins: the records that arrived meanwhile are in. *)
Definition arrive (env : Env) (s : State) : World :=
  set_cached (fst s)
    (cached_conversions (fst s) ++ arrivals env (steps (snd s)))%list.

(** A store call that raises when the store is unavailable. *)
Definition storeCall {A} (f : World -> A * World) (ev : Outcome A -> Event) : M A :=
  fun env s =>
    let w := arrive env s in
    match storeFault env (steps (snd s)) with
    | Some msg => (Thrown msg, (w, snoc (snd s) (ev (Thrown msg))))
    | None =>
        let '(a, w') := f w in
        (Returned a, (w', snoc (snd s) (ev (Returned a))))
    end.

(** Whether the store takes the write of step [k]. *)
Definition accepted (env : Env) (k : nat) : bool :=
  match storeFault env k with
  | Some _ => false
  | None => true
  end.

(** A logging call: when the store is unavailable the write is dropped and
    nothing is raised.  [f] is told whether the store takes the write. *)
Definition storeLog (f : bool -> World -> World) (ev : bool -> Event) : M unit :=
  fun env s =>
    let w := arrive env s in
    let ok := accepted env (steps (snd s)) in
    (Returned tt, (f ok w, snoc (snd s) (ev ok))).

(* ===================================================================== *)
(** ** [lib/database.js] and [fetch] *)
(* ===================================================================== *)

Definition sumAmounts (l : list CachedConversion) : Amount :=
  fold_right (fun c acc => (cc_amount c + acc)%Z) 0%Z l.

(** Modelled from the spec: [getGlobalCachedTotal] of [lib/database.js], which
    is not among the sources.  The sum of all pending amounts, 0 when there is
    none; a store failure propagates to the caller. *)
Definition getGlobalCachedTotal : M Amount :=
  storeCall (fun w => (sumAmounts (cached_conversions w), w))
            EvGetGlobalCachedTotal.

(** The connection pool. *)
Definition Pool := unit.

(** Modelled from the spec: [getPool] of [lib/database.js], which is not among
    the sources.  Connection management is outside the core: the call hands
    out the pool, it is not awaited and it does not fail. *)
Definition getPool : M Pool := fun _ s => (Returned tt, s).

(** The row [ORDER BY created_at DESC LIMIT 1] keeps; among equal timestamps
    the store is free to choose, the model keeps the later row. *)
Fixpoint latest (l : list CachedConversion) : option CachedConversion :=
  match l with
  | [] => None
  | c :: rest =>
      match latest rest with
      | Some d => if (cc_created_at c <? cc_created_at d)%nat
                     || (cc_created_at c =? cc_created_at d)%nat
                  then Some d else Some c
      | None => Some c
      end
  end.

(** [pool.execute] on the query every engine spells out,
    [SELECT clickid FROM cached_conversions ORDER BY created_at DESC LIMIT 1],
    read back as [clickidResult[0]?.clickid]. *)
Definition selectLatestClickid (pool : Pool) : M (option string) :=
  storeCall (fun w => (option_map cc_clickid (latest (cached_conversions w)), w))
            EvSelectClickid.

(** [pool.execute] on the query of [checkIfAlreadyRanToday],
    [SELECT COUNT( * ) FROM conversion_logs WHERE action IN (tags)
     AND DATE(created_at) = CURDATE()], read back as [rows[0].count]. *)
Definition countLogsToday (pool : Pool) (tags : list string) : M nat :=
  storeCall
    (fun w =>
       (length (filter (fun l => existsb (String.eqb (action (log_data l))) tags
                                 && (log_date l =? curdate w)%nat)
                       (conversion_logs w)), w))
    EvCountRuns.

(** Modelled from the spec: [logConversion] of [lib/database.js], which is not
    among the sources.  Appends an AuditEntry; logging is best-effort, a
    failure of the write is swallowed and never reaches the caller. *)
Definition logConversion (d : LogData) : M unit :=
  storeLog
    (fun ok w =>
       set_logs w (conversion_logs w
                   ++ (if ok then [{| log_data := d; log_date := curdate w |}]
                       else []))%list)
    (EvLogConversion d).

(** Modelled from the spec: [logPostback] of [lib/database.js], which is not
    among the sources.  Appends a SettlementAttempt; a failure of the write is
    swallowed and never reaches the caller. *)
Definition logPostback (clickid : string) (amount : Amount) (url : string)
    (success : bool) (responseText : string) (errorMessage : option string)
  : M unit :=
  let p := {| pb_clickid := clickid; pb_amount := amount; pb_url := url;
              pb_success := success; pb_response := responseText;
              pb_error := errorMessage |} in
  storeLog
    (fun ok w =>
       set_history w (postback_history w ++ (if ok then [p] else []))%list)
    (EvLogPostback p).

(** Modelled from the spec: [clearAllCachedConversions] of [lib/database.js],
    which is not among the sources.  Deletes every pending record and returns
    how many it deleted; a store failure propagates to the caller. *)
Definition clearAllCachedConversions : M nat :=
  storeCall (fun w => (length (cached_conversions w), set_cached w []))
            EvClearAll.

(** [await fetch(url, { method: 'GET', timeout: 30000 })]: a rejection is
    thrown, a response comes back with its status and its pending body. *)
Definition fetch (url : string) : M (nat * Outcome string) :=
  fun env s =>
    let w := arrive env s in
    let r := network env (steps (snd s)) url in
    let s' := (w, snoc (snd s) (EvFetch url r)) in
    match r with
    | NetworkError msg => (Thrown msg, s')
    | HttpResponse status text => (Returned (status, text), s')
    end.

(** [await response.text()]. *)
Definition responseTextOf (response : nat * Outcome string) : M string :=
  match snd response with
  | Returned t => ret t
  | Thrown msg => throw msg
  end.

(** [${x}] for a string that may be [null]. *)
Definition showNullable (x : option string) : string :=
  match x with
  | Some s => s
  | None => "null"
  end.

Definition redtrack (primaryClickid : string) (totalCached : Amount) : string :=
  "https://clks.trackthisclicks.com/postback?clickid="
    ++ encodeURIComponent primaryClickid
    ++ "&sum=" ++ encodeURIComponent (numberToString totalCached).

(* ===================================================================== *)
(** ** [lib/scheduler.js]: the timer path *)
(* ===================================================================== *)

Module Scheduler.

(** The objects handed to [logConversion], each under its action tag and in
    the order of the source. *)

Definition daily_auto_trigger (nyTime : Clock) : LogData :=
  {| clickid := "auto-scheduler"; action := "daily_auto_trigger";
     cached_amount := None; total_sent := None;
     log_message := "Auto-triggered daily postback at "
       ++ toISOString nyTime ++ " NY time" |}.

Definition daily_scheduler_error (error : string) : LogData :=
  {| clickid := "auto-scheduler"; action := "daily_scheduler_error";
     cached_amount := None; total_sent := None;
     log_message := "Daily scheduler error: " ++ error |}.

Definition no_cache_to_process (totalCached : Amount) : LogData :=
  {| clickid := "auto-scheduler"; action := "no_cache_to_process";
     cached_amount := None; total_sent := None;
     log_message := "No cached conversions found (total: $"
       ++ toFixed2 totalCached
       ++ "). Daily postback completed with no action needed." |}.

Definition daily_postback_preparing (primaryClickid : string)
    (totalCached : Amount) : LogData :=
  {| clickid := primaryClickid; action := "daily_postback_preparing";
     cached_amount := Some totalCached; total_sent := Some totalCached;
     log_message := "Preparing automated daily postback. Total cached: $"
       ++ toFixed2 totalCached ++ ", using clickid: " ++ primaryClickid |}.

Definition daily_postback_success (primaryClickid : string)
    (totalCached : Amount) (responseText : string) : LogData :=
  {| clickid := primaryClickid; action := "daily_postback_success";
     cached_amount := Some totalCached; total_sent := Some totalCached;
     log_message := "Automated daily postback successful. Amount: $"
       ++ toFixed2 totalCached ++ ", Response: " ++ responseText |}.

Definition daily_postback_failed (primaryClickid : string)
    (totalCached : Amount) (error : string) : LogData :=
  {| clickid := primaryClickid; action := "daily_postback_failed";
     cached_amount := Some totalCached; total_sent := Some totalCached;
     log_message := "Automated daily postback failed. Amount: $"
       ++ toFixed2 totalCached ++ ", Error: " ++ error |}.

Definition daily_cache_cleared (primaryClickid : string)
    (totalCached : Amount) (clearedRows : nat) : LogData :=
  {| clickid := primaryClickid; action := "daily_cache_cleared";
     cached_amount := None; total_sent := None;
     log_message :=
       "Automated daily postback completed successfully. Cache cleared: "
       ++ natToString clearedRows ++ " entries. Total sent: $"
       ++ toFixed2 totalCached |}.

Definition daily_postback_failed_final (primaryClickid : string)
    (totalCached : Amount) (errorMessage : option string) : LogData :=
  {| clickid := primaryClickid; action := "daily_postback_failed_final";
     cached_amount := None; total_sent := None;
     log_message :=
       "Automated daily postback failed. Cache NOT cleared. Amount: $"
       ++ toFixed2 totalCached ++ ", Error: " ++ showNullable errorMessage |}.

Definition daily_execution_error (error : string) : LogData :=
  {| clickid := "auto-scheduler"; action := "daily_execution_error";
     cached_amount := None; total_sent := None;
     log_message := "Daily postback execution error: " ++ error |}.

(** The inner [try]/[catch] assigns [postbackSuccess], [responseText] and
    [errorMessage]; here it returns them.  Nothing in the [try] can throw once
    [responseText] is assigned, so the handler always sees it empty. *)
Definition executeDailyPostback : M Result :=
  try_catch
    (totalCached <- getGlobalCachedTotal ;;
     if (totalCached <=? 0)%Z then
       (logConversion (no_cache_to_process totalCached) ;;
        ret {| success := Some true;
               message := Some "No cached conversions to process";
               totalAmount := Some totalCached;
               clearedEntries := None; clickidUsed := None; error := None;
               skipped := None; reason := None; nyTime := None |})
     else
       (pool <- getPool ;;
        clickidResult <- selectLatestClickid pool ;;
        let primaryClickid := orElse clickidResult "auto-scheduler" in
        logConversion (daily_postback_preparing primaryClickid totalCached) ;;
        let redtrackUrl := redtrack primaryClickid totalCached in
        sent <- try_catch
          (response <- fetch redtrackUrl ;;
           if negb (response_ok (fst response)) then
             throw ("HTTP error! status: " ++ natToString (fst response))
           else
             (responseText <- responseTextOf response ;;
              logConversion
                (daily_postback_success primaryClickid totalCached
                                        responseText) ;;
              ret (true, responseText, None)))
          (fun error =>
             logConversion
               (daily_postback_failed primaryClickid totalCached error) ;;
             ret (false, EmptyString, Some error)) ;;
        let '(postbackSuccess, responseText, errorMessage) := sent in
        logPostback primaryClickid totalCached redtrackUrl postbackSuccess
                    responseText errorMessage ;;
        if postbackSuccess then
          (clearedRows <- clearAllCachedConversions ;;
           logConversion
             (daily_cache_cleared primaryClickid totalCached clearedRows) ;;
           ret {| success := Some true;
                  message :=
                    Some "Daily postback sent successfully and cache cleared";
                  totalAmount := Some totalCached;
                  clearedEntries := Some clearedRows;
                  clickidUsed := Some primaryClickid; error := None;
                  skipped := None; reason := None; nyTime := None |})
        else
          (logConversion
             (daily_postback_failed_final primaryClickid totalCached
                                          errorMessage) ;;
           ret {| success := Some false;
                  message := Some "Daily postback failed - cache not cleared";
                  totalAmount := Some totalCached;
                  clearedEntries := None;
                  clickidUsed := Some primaryClickid; error := errorMessage;
                  skipped := None; reason := None; nyTime := None |})))
    (fun error =>
       logConversion (daily_execution_error error) ;;
       ret {| success := Some false;
              message := Some "Daily postback execution error";
              totalAmount := None; clearedEntries := None;
              clickidUsed := None; error := Some error;
              skipped := None; reason := None; nyTime := None |}).

(** [lastDailyRun === currentDateString]. *)
Definition sameDate (last : option string) (d : string) : bool :=
  match last with
  | Some s => String.eqb s d
  | None => false
  end.

Definition checkAndRunDailyPostback : M Result :=
  try_catch
    (nyTime <- getNow ;;
     let currentDateString := toDateString nyTime in
     last <- getLastDailyRun ;;
     if sameDate last currentDateString then
       ret {| success := None; message := None; totalAmount := None;
              clearedEntries := None; clickidUsed := None; error := None;
              skipped := Some true; reason := Some "Already ran today";
              nyTime := None |}
     else
       let hour := getHours nyTime in
       let minute := getMinutes nyTime in
       let isTimeWindow := (hour =? 23)%nat && (minute =? 59)%nat in
       if negb isTimeWindow then
         ret {| success := None; message := None; totalAmount := None;
                clearedEntries := None; clickidUsed := None; error := None;
                skipped := Some true;
                reason := Some ("Not in time window. Current NY time: "
                                ++ natToString hour ++ ":"
                                ++ padStart2 (natToString minute));
                nyTime := None |}
       else
         (setLastDailyRun currentDateString ;;
          logConversion (daily_auto_trigger nyTime) ;;
          executeDailyPostback))
    (fun error =>
       logConversion (daily_scheduler_error error) ;;
       ret {| success := Some false; message := None; totalAmount := None;
              clearedEntries := None; clickidUsed := None;
              error := Some error;
              skipped := None; reason := None; nyTime := None |}).

End Scheduler.

(* ===================================================================== *)
(** ** [pages/api/cron/daily-postback.js]: the cron path *)
(* ===================================================================== *)

Module CronDailyPostback.

(** The objects handed to [logConversion], under their action tags. *)

Definition cron_duplicate_prevented (currentDateString : string) : LogData :=
  {| clickid := "vercel-cron"; action := "cron_duplicate_prevented";
     cached_amount := None; total_sent := None;
     log_message := "Cron job skipped - already processed today ("
       ++ currentDateString ++ ")" |}.

Definition cron_no_cache (totalCached : Amount) : LogData :=
  {| clickid := "vercel-cron"; action := "cron_no_cache";
     cached_amount := None; total_sent := None;
     log_message :=
       "Cron job completed - no cached conversions to process (total: $"
       ++ toFixed2 totalCached ++ ")" |}.

Definition cron_postback_preparing (nyTime : Clock) (primaryClickid : string)
    (totalCached : Amount) : LogData :=
  {| clickid := primaryClickid; action := "cron_postback_preparing";
     cached_amount := Some totalCached; total_sent := Some totalCached;
     log_message := "Vercel Cron preparing daily postback. NY Time: "
       ++ toLocaleString nyTime ++ ", Total cached: $"
       ++ toFixed2 totalCached ++ ", using clickid: " ++ primaryClickid |}.

Definition cron_postback_success (primaryClickid : string)
    (totalCached : Amount) (responseText : string) : LogData :=
  {| clickid := primaryClickid; action := "cron_postback_success";
     cached_amount := Some totalCached; total_sent := Some totalCached;
     log_message := "Vercel Cron postback successful. Amount: $"
       ++ toFixed2 totalCached ++ ", Response: " ++ responseText |}.

Definition cron_postback_failed (primaryClickid : string)
    (totalCached : Amount) (error : string) : LogData :=
  {| clickid := primaryClickid; action := "cron_postback_failed";
     cached_amount := Some totalCached; total_sent := Some totalCached;
     log_message := "Vercel Cron postback failed. Amount: $"
       ++ toFixed2 totalCached ++ ", Error: " ++ error |}.

Definition cron_cache_cleared (primaryClickid : string)
    (totalCached : Amount) (clearedRows : nat) : LogData :=
  {| clickid := primaryClickid; action := "cron_cache_cleared";
     cached_amount := None; total_sent := None;
     log_message :=
       "Vercel Cron daily postback completed successfully. Cache cleared: "
       ++ natToString clearedRows ++ " entries. Total sent: $"
       ++ toFixed2 totalCached |}.

Definition cron_postback_failed_final (primaryClickid : string)
    (totalCached : Amount) (errorMessage : option string) : LogData :=
  {| clickid := primaryClickid; action := "cron_postback_failed_final";
     cached_amount := None; total_sent := None;
     log_message :=
       "Vercel Cron daily postback failed. Cache NOT cleared. Amount: $"
       ++ toFixed2 totalCached ++ ", Error: " ++ showNullable errorMessage |}.

Definition cron_execution_error (error : string) : LogData :=
  {| clickid := "vercel-cron"; action := "cron_execution_error";
     cached_amount := None; total_sent := None;
     log_message := "Vercel Cron execution error: " ++ error |}.

Definition checkIfAlreadyRanToday : M bool :=
  pool <- getPool ;;
  try_catch
    (count <- countLogsToday pool
                ["cron_postback_success"; "cron_cache_cleared"] ;;
     ret (0 <? count)%nat)
    (fun _ => ret false).

Definition executeDailyPostback : M Result :=
  try_catch
    (nyTime <- getNow ;;
     let currentDateString := toDateString nyTime in
     hasRunToday <- checkIfAlreadyRanToday ;;
     if hasRunToday then
       (logConversion (cron_duplicate_prevented currentDateString) ;;
        ret {| success := Some true;
               message := Some "Already processed today - duplicate prevented";
               totalAmount := None; clearedEntries := None;
               clickidUsed := None; error := None;
               skipped := Some true; reason := None; nyTime := None |})
     else
     (totalCached <- getGlobalCachedTotal ;;
     if (totalCached <=? 0)%Z then
       (logConversion (cron_no_cache totalCached) ;;
        ret {| success := Some true;
               message := Some "No cached conversions to process";
               totalAmount := Some totalCached;
               clearedEntries := None; clickidUsed := None; error := None;
               skipped := None; reason := None; nyTime := None |})
     else
       (pool <- getPool ;;
        clickidResult <- selectLatestClickid pool ;;
        let primaryClickid := orElse clickidResult "vercel-cron" in
        logConversion
          (cron_postback_preparing nyTime primaryClickid totalCached) ;;
        let redtrackUrl := redtrack primaryClickid totalCached in
        sent <- try_catch
          (response <- fetch redtrackUrl ;;
           if negb (response_ok (fst response)) then
             throw ("HTTP error! status: " ++ natToString (fst response))
           else
             (responseText <- responseTextOf response ;;
              logConversion
                (cron_postback_success primaryClickid totalCached
                                       responseText) ;;
              ret (true, responseText, None)))
          (fun error =>
             logConversion
               (cron_postback_failed primaryClickid totalCached error) ;;
             ret (false, EmptyString, Some error)) ;;
        let '(postbackSuccess, responseText, errorMessage) := sent in
        logPostback primaryClickid totalCached redtrackUrl postbackSuccess
                    responseText errorMessage ;;
        if postbackSuccess then
          (clearedRows <- clearAllCachedConversions ;;
           logConversion
             (cron_cache_cleared primaryClickid totalCached clearedRows) ;;
           ret {| success := Some true;
                  message :=
                    Some "Daily postback sent successfully and cache cleared";
                  totalAmount := Some totalCached;
                  clearedEntries := Some clearedRows;
                  clickidUsed := Some primaryClickid; error := None;
                  skipped := None; reason := None;
                  nyTime := Some (toLocaleString nyTime) |})
        else
          (logConversion
             (cron_postback_failed_final primaryClickid totalCached
                                         errorMessage) ;;
           ret {| success := Some false;
                  message := Some "Daily postback failed - cache not cleared";
                  totalAmount := Some totalCached;
                  clearedEntries := None;
                  clickidUsed := Some primaryClickid; error := errorMessage;
                  skipped := None; reason := None;
                  nyTime := Some (toLocaleString nyTime) |}))))
    (fun error =>
       logConversion (cron_execution_error error) ;;
       ret {| success := Some false;
              message := Some "Daily postback execution error";
              totalAmount := None; clearedEntries := None;
              clickidUsed := None; error := Some error;
              skipped := None; reason := None; nyTime := None |}).

End CronDailyPostback.

(* ===================================================================== *)
(** ** [pages/api/admin/manual-daily-postback.js]: the manual path *)
(* ===================================================================== *)

Module ManualDailyPostback.

(** The function starts by importing [lib/database.js] dynamically; the module
    is the one the file already imports statically, so this is not a step. *)

Definition manual_no_cache (totalCached : Amount) : LogData :=
  {| clickid := "manual-admin"; action := "manual_no_cache";
     cached_amount := None; total_sent := None;
     log_message := "Manual trigger: No cached conversions found (total: $"
       ++ toFixed2 totalCached ++ ")" |}.

Definition manual_postback_preparing (primaryClickid : string)
    (totalCached : Amount) : LogData :=
  {| clickid := primaryClickid; action := "manual_postback_preparing";
     cached_amount := Some totalCached; total_sent := Some totalCached;
     log_message := "Manual daily postback triggered by admin. Total cached: $"
       ++ toFixed2 totalCached ++ ", using clickid: " ++ primaryClickid |}.

Definition manual_postback_success (primaryClickid : string)
    (totalCached : Amount) (responseText : string) : LogData :=
  {| clickid := primaryClickid; action := "manual_postback_success";
     cached_amount := Some totalCached; total_sent := Some totalCached;
     log_message := "Manual daily postback successful. Amount: $"
       ++ toFixed2 totalCached ++ ", Response: " ++ responseText |}.

Definition manual_postback_failed (primaryClickid : string)
    (totalCached : Amount) (error : string) : LogData :=
  {| clickid := primaryClickid; action := "manual_postback_failed";
     cached_amount := Some totalCached; total_sent := Some totalCached;
     log_message := "Manual daily postback failed. Amount: $"
       ++ toFixed2 totalCached ++ ", Error: " ++ error |}.

Definition manual_cache_cleared (primaryClickid : string)
    (totalCached : Amount) (clearedRows : nat) : LogData :=
  {| clickid := primaryClickid; action := "manual_cache_cleared";
     cached_amount := None; total_sent := None;
     log_message :=
       "Manual daily postback completed successfully. Cache cleared: "
       ++ natToString clearedRows ++ " entries. Total sent: $"
       ++ toFixed2 totalCached |}.

Definition manual_execution_error (error : string) : LogData :=
  {| clickid := "manual-admin"; action := "manual_execution_error";
     cached_amount := None; total_sent := None;
     log_message := "Manual daily postback execution error: " ++ error |}.

Definition executeDailyPostback : M Result :=
  try_catch
    (totalCached <- getGlobalCachedTotal ;;
     if (totalCached <=? 0)%Z then
       (logConversion (manual_no_cache totalCached) ;;
        ret {| success := Some true;
               message := Some "No cached conversions to process";
               totalAmount := Some totalCached;
               clearedEntries := None; clickidUsed := None; error := None;
               skipped := None; reason := None; nyTime := None |})
     else
       (pool <- getPool ;;
        clickidResult <- selectLatestClickid pool ;;
        let primaryClickid := orElse clickidResult "manual-trigger" in
        logConversion (manual_postback_preparing primaryClickid totalCached) ;;
        let redtrackUrl := redtrack primaryClickid totalCached in
        sent <- try_catch
          (response <- fetch redtrackUrl ;;
           if negb (response_ok (fst response)) then
             throw ("HTTP error! status: " ++ natToString (fst response))
           else
             (responseText <- responseTextOf response ;;
              logConversion
                (manual_postback_success primaryClickid totalCached
                                         responseText) ;;
              ret (true, responseText, None)))
          (fun error =>
             logConversion
               (manual_postback_failed primaryClickid totalCached error) ;;
             ret (false, EmptyString, Some error)) ;;
        let '(postbackSuccess, responseText, errorMessage) := sent in
        logPostback primaryClickid totalCached redtrackUrl postbackSuccess
                    responseText errorMessage ;;
        if postbackSuccess then
          (clearedRows <- clearAllCachedConversions ;;
           logConversion
             (manual_cache_cleared primaryClickid totalCached clearedRows) ;;
           ret {| success := Some true;
                  message :=
                    Some "Manual daily postback sent successfully and cache cleared";
                  totalAmount := Some totalCached;
                  clearedEntries := Some clearedRows;
                  clickidUsed := Some primaryClickid; error := None;
                  skipped := None; reason := None; nyTime := None |})
        else
          ret {| success := Some false;
                 message :=
                   Some "Manual daily postback failed - cache not cleared";
                 totalAmount := Some totalCached;
                 clearedEntries := None;
                 clickidUsed := Some primaryClickid; error := errorMessage;
                 skipped := None; reason := None; nyTime := None |}))
    (fun error =>
       logConversion (manual_execution_error error) ;;
       ret {| success := Some false;
              message := Some "Manual daily postback execution error";
              totalAmount := None; clearedEntries := None;
              clickidUsed := None; error := Some error;
              skipped := None; reason := None; nyTime := None |}).

End ManualDailyPostback.

(* ===================================================================== *)
(** ** [pages/api/admin/force-daily-check.js]: the forced path *)
(* ===================================================================== *)

Module ForceDailyCheck.

(** The objects handed to [logConversion], under their action tags. *)

Definition force_no_cache (totalCached : Amount) : LogData :=
  {| clickid := "admin-force-check"; action := "force_no_cache";
     cached_amount := None; total_sent := None;
     log_message :=
       "Force check completed - no cached conversions to process (total: $"
       ++ toFixed2 totalCached ++ ")" |}.

Definition force_postback_preparing (nyTime : Clock) (primaryClickid : string)
    (totalCached : Amount) : LogData :=
  {| clickid := primaryClickid; action := "force_postback_preparing";
     cached_amount := Some totalCached; total_sent := Some totalCached;
     log_message := "Force check preparing daily postback. NY Time: "
       ++ toLocaleString nyTime ++ ", Total cached: $"
       ++ toFixed2 totalCached ++ ", using clickid: " ++ primaryClickid |}.

Definition force_postback_success (primaryClickid : string)
    (totalCached : Amount) (responseText : string) : LogData :=
  {| clickid := primaryClickid; action := "force_postback_success";
     cached_amount := Some totalCached; total_sent := Some totalCached;
     log_message := "Force check postback successful. Amount: $"
       ++ toFixed2 totalCached ++ ", Response: " ++ responseText |}.

Definition force_postback_failed (primaryClickid : string)
    (totalCached : Amount) (error : string) : LogData :=
  {| clickid := primaryClickid; action := "force_postback_failed";
     cached_amount := Some totalCached; total_sent := Some totalCached;
     log_message := "Force check postback failed. Amount: $"
       ++ toFixed2 totalCached ++ ", Error: " ++ error |}.

Definition force_cache_cleared (primaryClickid : string)
    (totalCached : Amount) (clearedRows : nat) : LogData :=
  {| clickid := primaryClickid; action := "force_cache_cleared";
     cached_amount := None; total_sent := None;
     log_message := "Force check completed successfully. Cache cleared: "
       ++ natToString clearedRows ++ " entries. Total sent: $"
       ++ toFixed2 totalCached |}.

Definition force_postback_failed_final (primaryClickid : string)
    (totalCached : Amount) (errorMessage : option string) : LogData :=
  {| clickid := primaryClickid; action := "force_postback_failed_final";
     cached_amount := None; total_sent := None;
     log_message := "Force check postback failed. Cache NOT cleared. Amount: $"
       ++ toFixed2 totalCached ++ ", Error: " ++ showNullable errorMessage |}.

Definition force_execution_error (error : string) : LogData :=
  {| clickid := "admin-force-check"; action := "force_execution_error";
     cached_amount := None; total_sent := None;
     log_message := "Force check execution error: " ++ error |}.

Definition executeForcedDailyPostback : M Result :=
  try_catch
    (nyTime <- getNow ;;
     totalCached <- getGlobalCachedTotal ;;
     if (totalCached <=? 0)%Z then
       (logConversion (force_no_cache totalCached) ;;
        ret {| success := Some true;
               message := Some "No cached conversions to process";
               totalAmount := Some totalCached;
               clearedEntries := None; clickidUsed := None; error := None;
               skipped := None; reason := None; nyTime := None |})
     else
       (pool <- getPool ;;
        clickidResult <- selectLatestClickid pool ;;
        let primaryClickid := orElse clickidResult "force-check" in
        logConversion
          (force_postback_preparing nyTime primaryClickid totalCached) ;;
        let redtrackUrl := redtrack primaryClickid totalCached in
        sent <- try_catch
          (response <- fetch redtrackUrl ;;
           if negb (response_ok (fst response)) then
             throw ("HTTP error! status: " ++ natToString (fst response))
           else
             (responseText <- responseTextOf response ;;
              logConversion
                (force_postback_success primaryClickid totalCached
                                        responseText) ;;
              ret (true, responseText, None)))
          (fun error =>
             logConversion
               (force_postback_failed primaryClickid totalCached error) ;;
             ret (false, EmptyString, Some error)) ;;
        let '(postbackSuccess, responseText, errorMessage) := sent in
        logPostback primaryClickid totalCached redtrackUrl postbackSuccess
                    responseText errorMessage ;;
        if postbackSuccess then
          (clearedRows <- clearAllCachedConversions ;;
           logConversion
             (force_cache_cleared primaryClickid totalCached clearedRows) ;;
           ret {| success := Some true;
                  message :=
                    Some "Force daily check: postback sent successfully and cache cleared";
                  totalAmount := Some totalCached;
                  clearedEntries := Some clearedRows;
                  clickidUsed := Some primaryClickid; error := None;
                  skipped := None; reason := None;
                  nyTime := Some (toLocaleString nyTime) |})
        else
          (logConversion
             (force_postback_failed_final primaryClickid totalCached
                                          errorMessage) ;;
           ret {| success := Some false;
                  message :=
                    Some "Force daily check: postback failed - cache not cleared";
                  totalAmount := Some totalCached;
                  clearedEntries := None;
                  clickidUsed := Some primaryClickid; error := errorMessage;
                  skipped := None; reason := None;
                  nyTime := Some (toLocaleString nyTime) |})))
    (fun error =>
       logConversion (force_execution_error error) ;;
       ret {| success := Some false;
              message := Some "Force daily check execution error";
              totalAmount := None; clearedEntries := None;
              clickidUsed := None; error := Some error;
              skipped := None; reason := None; nyTime := None |}).

End ForceDailyCheck.

(** The four variants of the settlement engine, by trigger path. *)
Inductive Path := Timer | Cron | Manual | Forced.

Definition engine (p : Path) : M Result :=
  match p with
  | Timer => Scheduler.executeDailyPostback
  | Cron => CronDailyPostback.executeDailyPostback
  | Manual => ManualDailyPostback.executeDailyPostback
  | Forced => ForceDailyCheck.executeForcedDailyPostback
  end.

(* ===================================================================== *)
(** ** Reading the log of an invocation *)
(* ===================================================================== *)

(** The outbound notifications: every [fetch], with what came back. *)
Fixpoint fetches (evs : list Event) : list (string * FetchOutcome) :=
  match evs with
  | [] => []
  | EvFetch url r :: rest => (url, r) :: fetches rest
  | _ :: rest => fetches rest
  end.

(** The calls of [logPostback], with whether the store took the row. *)
Fixpoint postbacks (evs : list Event) : list (Postback * bool) :=
  match evs with
  | [] => []
  | EvLogPostback p written :: rest => (p, written) :: postbacks rest
  | _ :: rest => postbacks rest
  end.

(** The calls of [clearAllCachedConversions]. *)
Fixpoint clears (evs : list Event) : list (Outcome nat) :=
  match evs with
  | [] => []
  | EvClearAll r :: rest => r :: clears rest
  | _ :: rest => clears rest
  end.

(** The calls of [logConversion], with whether the store took the row. *)
Fixpoint logged (evs : list Event) : list (LogData * bool) :=
  match evs with
  | [] => []
  | EvLogConversion d written :: rest => (d, written) :: logged rest
  | _ :: rest => logged rest
  end.

(** What the engine makes of a [fetch]: the response body when the request
    went through with a status in 200..299 and a readable body, an error
    otherwise (rejection, other status, unreadable body). *)
Definition delivered (r : FetchOutcome) : Outcome string :=
  match r with
  | NetworkError msg => Thrown msg
  | HttpResponse status text =>
      if response_ok status then text
      else Thrown ("HTTP error! status: " ++ natToString status)
  end.

(** The pending records that arrived during steps [i], ..., [i + n - 1]. *)
Definition arrived (env : Env) (i n : nat) : list CachedConversion :=
  concat (map (arrivals env) (seq i n)).

(** The step at which the pending set is cleared, if it is. *)
Fixpoint clearStep (evs : list Event) : option nat :=
  match evs with
  | [] => None
  | EvClearAll _ :: _ => Some 0
  | _ :: rest => option_map S (clearStep rest)
  end.

(** The last event of a log. *)
Fixpoint lastEvent (evs : list Event) : option Event :=
  match evs with
  | [] => None
  | [e] => Some e
  | _ :: rest => lastEvent rest
  end.

(** The identifier each variant falls back to when no pending record is found. *)
Definition sentinel (p : Path) : string :=
  match p with
  | Timer => "auto-scheduler"
  | Cron => "vercel-cron"
  | Manual => "manual-trigger"
  | Forced => "force-check"
  end.

(** The action tag of each variant's execution-error entry. *)
Definition executionErrorAction (p : Path) : string :=
  match p with
  | Timer => "daily_execution_error"
  | Cron => "cron_execution_error"
  | Manual => "manual_execution_error"
  | Forced => "force_execution_error"
  end.

(** The tags under which each variant logs a confirmed settlement. *)
Definition successTags (p : Path) : list string :=
  match p with
  | Timer => ["daily_postback_success"; "daily_cache_cleared"]
  | Cron => ["cron_postback_success"; "cron_cache_cleared"]
  | Manual => ["manual_postback_success"; "manual_cache_cleared"]
  | Forced => ["force_postback_success"; "force_cache_cleared"]
  end.

(** The audit log holds an entry of today with one of the tags. *)
Definition loggedToday (tags : list string) (w : World) : Prop :=
  exists e, In e (conversion_logs w)
            /\ log_date e = curdate w
            /\ In (action (log_data e)) tags.

(** The notifications the engine took as confirmed. *)
Definition confirmations (evs : list Event) : list (string * FetchOutcome) :=
  filter (fun ur => match delivered (snd ur) with
                    | Returned _ => true
                    | Thrown _ => false
                    end)
         (fetches evs).

(** Invocations one after the other, each with its own environment, the
    state handed on. *)
Fixpoint runEach {A} (m : M A) (envs : list Env) (w : World)
  : list (Outcome A * list Event) * World :=
  match envs with
  | [] => ([], w)
  | env :: rest =>
      let '(o, w1, evs) := run m env w in
      let '(rs, w2) := runEach m rest w1 in
      ((o, evs) :: rs, w2)
  end.

(** The two logging calls. *)
Definition isLogEvent (e : Event) : bool :=
  match e with
  | EvLogConversion _ _ | EvLogPostback _ _ => true
  | _ => false
  end.

(** Two environments that differ at most in whether the store takes the
    writes of the logging calls of a run with log [evs]. *)
Definition sameButLogWrites (evs : list Event) (env env' : Env) : Prop :=
  now env = now env'
  /\ (forall k, arrivals env k = arrivals env' k)
  /\ (forall k url, network env k url = network env' k url)
  /\ (forall k e, nth_error evs k = Some e -> isLogEvent e = false ->
                  storeFault env k = storeFault env' k).

(* ===================================================================== *)
(** ** Scenarios *)
(* ===================================================================== *)

(** 23:59 in New York on 9 January 2024. *)
Definition jan9 : Clock :=
  {| toDateString := "Tue Jan 09 2024"; getHours := 23; getMinutes := 59;
     toISOString := "2024-01-09T23:59:07.000Z";
     toLocaleString := "1/9/2024, 11:59:07 PM" |}.

(** An environment where nothing arrives, the store is unavailable exactly at
    the steps listed in [down], and the network always answers [answer]. *)
Definition environment (clock : Clock) (down : list nat)
    (answer : FetchOutcome) : Env :=
  {| now := Returned clock;
     arrivals := fun _ => [];
     storeFault := fun k => if existsb (Nat.eqb k) down
                            then Some "connect ETIMEDOUT" else None;
     network := fun _ _ => answer |}.

Definition ok200 : FetchOutcome := HttpResponse 200 (Returned "OK").

(** One pending record of $42.50 under identifier abc123, nothing logged yet. *)
Definition onePending : World :=
  {| cached_conversions :=
       [{| cc_clickid := "abc123"; cc_amount := 4250%Z; cc_created_at := 1 |}];
     conversion_logs := []; postback_history := [];
     curdate := 9; lastDailyRun := None |}.

Definition abc123Url : string :=
  "https://clks.trackthisclicks.com/postback?clickid=abc123&sum=42.5".

(** The timer engine when everything works. *)
Definition calmRun : Outcome Result * World * list Event :=
  run (engine Timer) (environment jan9 [] ok200) onePending.

(** The timer engine when the notification is confirmed and the store then
    fails at the clear (step 6). *)
Definition clearFailsRun : Outcome Result * World * list Event :=
  run (engine Timer) (environment jan9 [6] ok200) onePending.

(** The timer engine when the notification is confirmed and the store then
    drops the write of the attempt (step 5). *)
Definition historyDroppedRun : Outcome Result * World * list Event :=
  run (engine Timer) (environment jan9 [5] ok200) onePending.

(** The cron check on the store the timer engine leaves behind. *)
Definition checkAfterTimerRun : Outcome bool * World * list Event :=
  run CronDailyPostback.checkIfAlreadyRanToday (environment jan9 [] ok200)
      (snd (fst calmRun)).

(** The cron check on the store the cron engine leaves behind. *)
Definition checkAfterCronRun : Outcome bool * World * list Event :=
  run CronDailyPostback.checkIfAlreadyRanToday (environment jan9 [] ok200)
      (snd (fst (run (engine Cron) (environment jan9 [] ok200) onePending))).

(** Two cron invocations on the same day, everything working except that the
    endpoint answers the first with a 503. *)
Definition firstAttemptRun : Outcome Result * World * list Event :=
  run (engine Cron)
      (environment jan9 [] (HttpResponse 503 (Returned "Service Unavailable")))
      onePending.

Definition secondAttemptRun : Outcome Result * World * list Event :=
  run (engine Cron) (environment jan9 [] ok200) (snd (fst firstAttemptRun)).

(** Two cron invocations on the same day, everything working. *)
Definition firstSettledRun : Outcome Result * World * list Event :=
  run (engine Cron) (environment jan9 [] ok200) onePending.

Definition afterSettledRun : Outcome Result * World * list Event :=
  run (engine Cron) (environment jan9 [] ok200) (snd (fst firstSettledRun)).

(** Two cron invocations on the same day: the first settles while the store
    drops its [cron_postback_success] and [cron_cache_cleared] entries (steps
    5 and 8); a new record of $5.00 arrives as the second begins. *)
Definition unloggedSettledRun : Outcome Result * World * list Event :=
  run (engine Cron) (environment jan9 [5; 8] ok200) onePending.

Definition lateArrival : Env :=
  {| now := Returned jan9;
     arrivals := fun k =>
       if (k =? 0)%nat
       then [{| cc_clickid := "def456"; cc_amount := 500%Z;
                cc_created_at := 2 |}]
       else [];
     storeFault := fun _ => None;
     network := fun _ _ => ok200 |}.

Definition afterUnloggedRun : Outcome Result * World * list Event :=
  run (engine Cron) lateArrival (snd (fst unloggedSettledRun)).

(** The timer path in a process that already ran on 9 January. *)
Definition alreadyMarked : World :=
  set_lastDailyRun onePending (Some "Tue Jan 09 2024").

Definition markedRun : Outcome Result * World * list Event :=
  run Scheduler.checkAndRunDailyPostback (environment jan9 [] ok200)
      alreadyMarked.

(** The timer path in its window, the endpoint timing out. *)
Definition timedOut : FetchOutcome :=
  NetworkError "network timeout at: https://clks.trackthisclicks.com/postback".

Definition windowRun : Outcome Result * World * list Event :=
  run Scheduler.checkAndRunDailyPostback (environment jan9 [] timedOut)
      onePending.

(** Nothing pending: the total is 0. *)
Definition nothingPending : World :=
  {| cached_conversions := []; conversion_logs := []; postback_history := [];
     curdate := 9; lastDailyRun := None |}.

Definition nothingPendingRun : Outcome Result * World * list Event :=
  run (engine Manual) (environment jan9 [] ok200) nothingPending.

(** $10.00 pending, the endpoint timing out, on the cron path. *)
Definition tenDollars : World :=
  {| cached_conversions :=
       [{| cc_clickid := "xyz789"; cc_amount := 1000%Z; cc_created_at := 3 |}];
     conversion_logs := []; postback_history := [];
     curdate := 9; lastDailyRun := None |}.

Definition xyz789Url : string :=
  "https://clks.trackthisclicks.com/postback?clickid=xyz789&sum=10".

Definition timedOutRun : Outcome Result * World * list Event :=
  run (engine Cron) (environment jan9 [] timedOut) tenDollars.

(** The forced path with the store unavailable from the first step on. *)
Definition storeDownRun : Outcome Result * World * list Event :=
  run (engine Forced) (environment jan9 [0; 1] ok200) onePending.

(* ===================================================================== *)
(** ** The three API routes *)
(* ===================================================================== *)

(** What a handler reads of the request: [req.method] and
    [req.headers['user-agent']] ([undefined] is [None]). *)
Record Request := {
  method : string;
  user_agent : option string
}.

(** The host of a handler: what [new Date().toISOString()] gives at each step
    of the invocation, and whether [initializeDatabase] throws. *)
Record Host := {
  isoStringNow : nat -> string;
  initFault : option string
}.

(** The body handed to [res.json]: the keys the handlers add, and the keys of
    a result. *)
Record Json := {
  triggered : option bool;
  forced : option bool;
  timestamp : option string;
  timezone : option string;
  fields : Result
}.

(** [res.status(status).json(json)]. *)
Record Response := {
  status : nat;
  json : Json
}.

(** An object literal with none of the keys of a result. *)
Definition noFields : Result :=
  {| success := None; message := None; totalAmount := None;
     clearedEntries := None; clickidUsed := None; error := None;
     skipped := None; reason := None; nyTime := None |}.

Definition orKey {A} (over base : option A) : option A :=
  match over with
  | Some v => Some v
  | None => base
  end.

(** [{ ...base, ...over }]: a key of [over] wins over the same key of [base]. *)
Definition spread (base over : Result) : Result :=
  {| success := orKey (success over) (success base);
     message := orKey (message over) (message base);
     totalAmount := orKey (totalAmount over) (totalAmount base);
     clearedEntries := orKey (clearedEntries over) (clearedEntries base);
     clickidUsed := orKey (clickidUsed over) (clickidUsed base);
     error := orKey (error over) (error base);
     skipped := orKey (skipped over) (skipped base);
     reason := orKey (reason over) (reason base);
     nyTime := orKey (nyTime over) (nyTime base) |}.

(** [a !== b] is [negb (strictEquals a b)], for [a] possibly [undefined]. *)
Definition strictEquals (a : option string) (b : string) : bool :=
  match a with
  | Some s => String.eqb s b
  | None => false
  end.

(** [x ? 200 : 500] on a key that may be absent. *)
Definition statusOf (x : option bool) : nat :=
  match x with
  | Some true => 200
  | _ => 500
  end.

(** [new Date().toISOString()]. *)
Definition newDateISO (host : Host) : M string :=
  fun _ s => (Returned (isoStringNow host (steps (snd s))), s).

(** Modelled from the spec: [initializeDatabase] of [lib/database.js], which is
    not among the sources.  Connection and schema management are outside the
    core: the call touches no row, and it throws when the store cannot be set
    up.  Whether it does is the host's; it is not counted as a step. *)
Definition initializeDatabase (host : Host) : M unit :=
  fun _ s =>
    match initFault host with
    | Some msg => (Thrown msg, s)
    | None => (Returned tt, s)
    end.

Module CronRoute.

Definition cron_daily_trigger (at_ : string) : LogData :=
  {| clickid := "vercel-cron"; action := "cron_daily_trigger";
     cached_amount := None; total_sent := None;
     log_message := "Vercel Cron triggered daily postback at " ++ at_ |}.

Definition cron_error (error : string) : LogData :=
  {| clickid := "vercel-cron"; action := "cron_error";
     cached_amount := None; total_sent := None;
     log_message := "Vercel Cron error: " ++ error |}.

Definition handler (host : Host) (req : Request) : M Response :=
  try_catch
    (if negb (strictEquals (user_agent req) "vercel-cron/1.0") then
       ret {| status := 401;
              json := {| triggered := None; forced := None;
                         timestamp := None; timezone := None;
                         fields :=
                           {| success := None; message := None;
                              totalAmount := None; clearedEntries := None;
                              clickidUsed := None;
                              error :=
                                Some "Unauthorized - Not a Vercel Cron request";
                              skipped := None; reason := None;
                              nyTime := None |} |} |}
     else
       (initializeDatabase host ;;
        at_ <- newDateISO host ;;
        logConversion (cron_daily_trigger at_) ;;
        result <- CronDailyPostback.executeDailyPostback ;;
        stamp <- newDateISO host ;;
        ret {| status := 200;
               json := {| triggered := None; forced := None;
                          timestamp := Some stamp;
                          timezone :=
                            Some "Cron runs at 11:59 PM Eastern Time (4:59 AM UTC)";
                          fields :=
                            spread
                              {| success := Some true; message := None;
                                 totalAmount := None; clearedEntries := None;
                                 clickidUsed := None; error := None;
                                 skipped := None; reason := None;
                                 nyTime := None |}
                              result |} |}))
    (fun error =>
       try_catch (logConversion (cron_error error)) (fun _ => ret tt) ;;
       stamp <- newDateISO host ;;
       ret {| status := 500;
              json := {| triggered := None; forced := None;
                         timestamp := Some stamp; timezone := None;
                         fields :=
                           {| success := Some false; message := None;
                              totalAmount := None; clearedEntries := None;
                              clickidUsed := None; error := Some error;
                              skipped := None; reason := None;
                              nyTime := None |} |} |}).

End CronRoute.

Module ManualRoute.

Definition manual_trigger_start : LogData :=
  {| clickid := "manual-admin"; action := "manual_trigger_start";
     cached_amount := None; total_sent := None;
     log_message := "Admin manually triggered daily postback" |}.

Definition manual_trigger_error (error : string) : LogData :=
  {| clickid := "manual-admin"; action := "manual_trigger_error";
     cached_amount := None; total_sent := None;
     log_message := "Manual trigger error: " ++ error |}.

Definition handler (host : Host) (req : Request) : M Response :=
  if negb (String.eqb (method req) "POST") then
    ret {| status := 405;
           json := {| triggered := None; forced := None;
                      timestamp := None; timezone := None;
                      fields :=
                        {| success := None;
                           message := Some "Method not allowed";
                           totalAmount := None; clearedEntries := None;
                           clickidUsed := None; error := None;
                           skipped := None; reason := None;
                           nyTime := None |} |} |}
  else
    try_catch
      (logConversion manual_trigger_start ;;
       result <- ManualDailyPostback.executeDailyPostback ;;
       stamp <- newDateISO host ;;
       ret {| status := statusOf (success result);
              json := {| triggered := Some true; forced := None;
                         timestamp := Some stamp; timezone := None;
                         fields := result |} |})
      (fun error =>
         logConversion (manual_trigger_error error) ;;
         ret {| status := 500;
                json := {| triggered := None; forced := None;
                           timestamp := None; timezone := None;
                           fields :=
                             {| success := None;
                                message :=
                                  Some "Failed to trigger manual daily postback";
                                totalAmount := None; clearedEntries := None;
                                clickidUsed := None; error := Some error;
                                skipped := None; reason := None;
                                nyTime := None |} |} |}).

End ManualRoute.

Module ForceRoute.

Definition admin_force_daily_check : LogData :=
  {| clickid := "admin-force-check"; action := "admin_force_daily_check";
     cached_amount := None; total_sent := None;
     log_message :=
       "Admin manually forced daily postback check (bypasses time window)" |}.

Definition admin_force_check_error (error : string) : LogData :=
  {| clickid := "admin-force-check"; action := "admin_force_check_error";
     cached_amount := None; total_sent := None;
     log_message := "Admin force check error: " ++ error |}.

Definition handler (host : Host) (req : Request) : M Response :=
  if negb (String.eqb (method req) "POST") then
    ret {| status := 405;
           json := {| triggered := None; forced := None;
                      timestamp := None; timezone := None;
                      fields :=
                        {| success := None;
                           message := Some "Method not allowed";
                           totalAmount := None; clearedEntries := None;
                           clickidUsed := None; error := None;
                           skipped := None; reason := None;
                           nyTime := None |} |} |}
  else
    try_catch
      (initializeDatabase host ;;
       logConversion admin_force_daily_check ;;
       result <- ForceDailyCheck.executeForcedDailyPostback ;;
       stamp <- newDateISO host ;;
       ret {| status := statusOf (success result);
              json := {| triggered := None; forced := Some true;
                         timestamp := Some stamp; timezone := None;
                         fields := result |} |})
      (fun error =>
         try_catch (logConversion (admin_force_check_error error))
                   (fun _ => ret tt) ;;
         ret {| status := 500;
                json := {| triggered := None; forced := None;
                           timestamp := None; timezone := None;
                           fields :=
                             {| success := None;
                                message := Some "Failed to force daily check";
                                totalAmount := None; clearedEntries := None;
                                clickidUsed := None; error := Some error;
                                skipped := None; reason := None;
                                nyTime := None |} |} |}).

End ForceRoute.

(* ===================================================================== *)
(** ** More readings of a run *)
(* ===================================================================== *)

(** The environment as seen [n] steps into an invocation. *)
Definition afterSteps (n : nat) (env : Env) : Env :=
  {| now := now env;
     arrivals := fun k => arrivals env (n + k);
     storeFault := fun k => storeFault env (n + k);
     network := fun k url => network env (n + k) url |}.

(** The step at which the total is read, if it is. *)
Fixpoint readStep (evs : list Event) : option nat :=
  match evs with
  | [] => None
  | EvGetGlobalCachedTotal _ :: _ => Some 0
  | _ :: rest => option_map S (readStep rest)
  end.

(** The audit entries a run added: those of its [logConversion] calls the
    store took, dated [date]. *)
Definition auditRows (date : nat) (evs : list Event) : list ConversionLog :=
  flat_map (fun c : LogData * bool =>
              if snd c then [{| log_data := fst c; log_date := date |}]
              else [])
           (logged evs).

(** The attempts a run added: those of its [logPostback] calls the store
    took. *)
Definition attemptRows (evs : list Event) : list Postback :=
  flat_map (fun c : Postback * bool => if snd c then [fst c] else [])
           (postbacks evs).

(** A POST from an administrator, the cron's request, and a host whose
    database comes up. *)
Definition post : Request := {| method := "POST"; user_agent := None |}.

Definition fromVercelCron : Request :=
  {| method := "GET"; user_agent := Some "vercel-cron/1.0" |}.

Definition fromBrowser : Request :=
  {| method := "GET"; user_agent := Some "Mozilla/5.0" |}.

Definition upHost : Host :=
  {| isoStringNow := fun _ => "2024-01-10T04:59:07.000Z"; initFault := None |}.

Definition downHost : Host :=
  {| isoStringNow := fun _ => "2024-01-10T04:59:07.000Z";
     initFault := Some "connect ECONNREFUSED" |}.

(** Noon in New York on 9 January 2024. *)
Definition jan9noon : Clock :=
  {| toDateString := "Tue Jan 09 2024"; getHours := 12; getMinutes := 5;
     toISOString := "2024-01-09T12:05:00.000Z";
     toLocaleString := "1/9/2024, 12:05:00 PM" |}.

(** An environment whose clock cannot be read. *)
Definition noClock : Env :=
  {| now := Thrown "Invalid time zone specified: America/New_York";
     arrivals := fun _ => [];
     storeFault := fun _ => None;
     network := fun _ _ => ok200 |}.

(** Two pending records, the later one created last; a third arrives between
    the read of the total and the clear. *)
Definition twoPending : World :=
  {| cached_conversions :=
       [{| cc_clickid := "abc123"; cc_amount := 4250%Z; cc_created_at := 1 |};
        {| cc_clickid := "xyz789"; cc_amount := 1000%Z; cc_created_at := 3 |}];
     conversion_logs := []; postback_history := [];
     curdate := 9; lastDailyRun := None |}.

Definition arrivesDuringFetch : Env :=
  {| now := Returned jan9;
     arrivals := fun k =>
       if (k =? 3)%nat
       then [{| cc_clickid := "def456"; cc_amount := 500%Z;
                cc_created_at := 4 |}]
       else [];
     storeFault := fun _ => None;
     network := fun _ _ => ok200 |}.

(* ===================================================================== *)
(** ** Characters of the notification URL *)
(* ===================================================================== *)

(** Every character of [s] passes [f]. *)
Fixpoint everyChar (f : ascii -> bool) (s : string) : bool :=
  match s with
  | EmptyString => true
  | String c rest => f c && everyChar f rest
  end.

(** What a query-string value may hold without ending it: the characters
    [encodeURIComponent] leaves alone, and the [%] of an escape. *)
Definition uriSafe (c : ascii) : bool := uriUnreserved c || Ascii.eqb c "%".

(** The amounts whose JavaScript number prints as the decimal does: up to 15
    digits of hundredths (below 1e13) the double nearest a two-digit decimal
    gives back its digits under [String] and [toFixed(2)].  Beyond, digits
    are lost, and from 1e21 up both print an exponent ([1e+21]); there
    [numberToString] and [toFixed2] are not what the code prints. *)
Definition printsAsDecimal (x : Amount) : Prop := (Z.abs x < 10 ^ 15)%Z.

(* ===================================================================== *)
(** ** More scenarios *)
(* ===================================================================== *)

(** The timer engine on two pending records while a third arrives during the
    request. *)
Definition raceRun : Outcome Result * World * list Event :=
  run (engine Timer) arrivesDuringFetch twoPending.


(** The manual engine, the endpoint timing out, and the attempt it records. *)
Definition manualTimedOutRun : Outcome Result * World * list Event :=
  run (engine Manual) (environment jan9 [] timedOut) tenDollars.

Definition timedOutAttempt : Postback :=
  {| pb_clickid := "xyz789"; pb_amount := 1000%Z; pb_url := xyz789Url;
     pb_success := false; pb_response := EmptyString;
     pb_error :=
       Some "network timeout at: https://clks.trackthisclicks.com/postback" |}.

(** The timer path in its window, everything working. *)
Definition timerCalmRun : Outcome Result * World * list Event :=
  run Scheduler.checkAndRunDailyPostback (environment jan9 [] ok200)
      onePending.

(** The three routes. *)
Definition cronRouteRun : Outcome Response * World * list Event :=
  run (CronRoute.handler upHost fromVercelCron) (environment jan9 [] ok200)
      onePending.

Definition manualRouteRun : Outcome Response * World * list Event :=
  run (ManualRoute.handler upHost post) (environment jan9 [] ok200)
      onePending.

Definition forceRouteDownRun : Outcome Response * World * list Event :=
  run (ForceRoute.handler downHost post) (environment jan9 [] ok200)
      onePending.

Definition cronRouteTimedOutRun : Outcome Response * World * list Event :=
  run (CronRoute.handler upHost fromVercelCron)
      (environment jan9 [] timedOut) tenDollars.

Definition forceRouteTimedOutRun : Outcome Response * World * list Event :=
  run (ForceRoute.handler upHost post) (environment jan9 [] timedOut)
      tenDollars.

(** The store after a settlement logged by the cron path today, with the same
    record pending again and the timer's marker set. *)
Definition settledBefore : World :=
  {| cached_conversions := cached_conversions onePending;
     conversion_logs := conversion_logs (snd (fst firstSettledRun));
     postback_history := postback_history (snd (fst firstSettledRun));
     curdate := 9;
     lastDailyRun := Some "Tue Jan 09 2024" |}.

Definition forcedFreshRun : Outcome Result * World * list Event :=
  run (engine Forced) (environment jan9 [] ok200) onePending.

Definition forcedAgainRun : Outcome Result * World * list Event :=
  run (engine Forced) (environment jan9 [] ok200) settledBefore.

(** Three more cron invocations on the day of a logged settlement, a new
    record arriving as the first of them begins. *)
Definition restOfDayRuns : list (Outcome Result * list Event) * World :=
  runEach (engine Cron) [lateArrival; environment jan9 [] ok200;
                         environment jan9 [] timedOut]
          (snd (fst firstSettledRun)).

(* ===================================================================== *)
(** ** Symbolic execution *)
(* ===================================================================== *)

(** A run is unfolded in a hypothesis [H : run _ env w = (o, w', evs)], one
    awaited call at a time ([step]), with a case split wherever the
    environment or a test decides how the code goes on ([branch]). *)
Ltac unfold_engines H :=
  unfold run, engine, Scheduler.checkAndRunDailyPostback,
    Scheduler.executeDailyPostback,
    CronDailyPostback.executeDailyPostback,
    CronDailyPostback.checkIfAlreadyRanToday,
    ManualDailyPostback.executeDailyPostback,
    ForceDailyCheck.executeForcedDailyPostback in H.

Ltac step H :=
  cbv beta iota zeta delta
      [try_catch bind ret throw getNow getLastDailyRun setLastDailyRun getPool
       getGlobalCachedTotal selectLatestClickid countLogsToday logConversion
       logPostback clearAllCachedConversions fetch responseTextOf storeCall
       storeLog arrive set_cached set_logs set_history set_lastDailyRun
       cached_conversions conversion_logs postback_history curdate
       lastDailyRun fst snd steps snoc negb andb] in H.

Ltac branch H :=
  match type of H with
  | context [match storeFault ?e ?k with _ => _ end] =>
      destruct (storeFault e k) eqn:?
  | context [(?t <=? 0)%Z] => destruct (Z.leb_spec t 0)
  | context [(0 <? ?c)%nat] => destruct (Nat.ltb_spec 0 c)
  | context [match network ?e ?k ?u with _ => _ end] =>
      destruct (network e k u) as [? | ? [? | ?]] eqn:?
  | context [response_ok ?st] => destruct (response_ok st) eqn:?
  | context [match now ?e with _ => _ end] => destruct (now e) eqn:?
  | context [Scheduler.sameDate ?a ?b] =>
      destruct (Scheduler.sameDate a b) eqn:?
  | context [(?a =? ?b)%nat] => destruct (a =? b)%nat eqn:?
  end.

Ltac exec H := unfold_engines H; step H; repeat (branch H; step H).

Ltac leaf H := injection H as <- <- <-.

(** The run in [H2], in an environment [env'] that answers like [env]
    wherever [env] was asked in the run already unfolded. *)
Ltac replay H2 env env' Hnow Harr Hnet Hsf :=
  rewrite <- ?Harr in H2;
  match type of H2 with
  | context [match now env' with _ => _ end] => rewrite <- Hnow in H2
  | context [match storeFault env' ?k with _ => _ end] =>
      rewrite <- (Hsf k _ eq_refl eq_refl) in H2;
      match goal with E : storeFault env k = _ |- _ => rewrite E in H2 end
  | context [(?t <=? 0)%Z] => destruct (Z.leb_spec t 0); [try lia | try lia]
  | context [(0 <? ?c)%nat] =>
      destruct (Nat.ltb_spec 0 c); [try lia | try lia]
  | context [match network env' ?k ?u with _ => _ end] =>
      rewrite <- (Hnet k u) in H2;
      match goal with E : network env k _ = _ |- _ => rewrite E in H2 end
  | context [response_ok ?st] =>
      match goal with E : response_ok st = _ |- _ => rewrite E in H2 end
  end.

(** Hypotheses of the form [In x l], for [l] one of the readings of a log that
    is now known event by event. *)
Ltac pick_event :=
  cbn [fetches postbacks clears logged] in *;
  repeat match goal with
    | H : In _ (_ :: _) |- _ => destruct H as [H | H]
    | H : In _ [] |- _ => destruct H
    | H : _ \/ _ |- _ => destruct H as [H | H]
    | H : _ = _ :> Event |- _ =>
        first [ discriminate H | injection H as H; try subst ]
    | H : _ = _ :> Outcome _ |- _ =>
        first [ discriminate H | injection H as H; try subst ]
    | H : _ = _ :> (_ * _)%type |- _ =>
        first [ discriminate H | injection H as ? H; try subst ]
    end.

(** [delivered r] once [r] and [response_ok] of its status are known. *)
Ltac classify :=
  repeat match goal with
    | H : delivered _ = _ |- _ => cbn [delivered] in H
    | E : response_ok ?st = _, H : context [response_ok ?st] |- _ =>
        rewrite E in H
    | H : _ = _ :> Outcome _ |- _ =>
        first [ discriminate H | injection H as H; try subst ]
    end.

(** [response_ok] of a status that is known. *)
Ltac know_status :=
  repeat match goal with
    | E : response_ok ?st = _ |- context [response_ok ?st] => rewrite E
    end.

(** Both sides list the same arrivals, bracketed differently. *)
Ltac same_arrivals :=
  cbv [arrived seq map concat steps Nat.sub];
  cbn [cached_conversions conversion_logs postback_history app];
  rewrite <- ?app_assoc, ?app_nil_r; reflexivity.

(** [In x l] for a list known element by element. *)
Ltac find_in :=
  cbn [In]; solve [ repeat first [ left; reflexivity | right ] ].


(* ===================================================================== *)
(** ** Values and scenarios, computed *)
(* ===================================================================== *)

Example toFixed2_4250 : toFixed2 4250%Z = "42.50".
Proof. reflexivity. Qed.

Example toFixed2_small :
  toFixed2 7%Z = "0.07" /\ toFixed2 (-5)%Z = "-0.05".
Proof. split; reflexivity. Qed.

Example numberToString_short :
  numberToString 4250%Z = "42.5" /\ numberToString 1000%Z = "10"
  /\ numberToString 7%Z = "0.07".
Proof. repeat split; reflexivity. Qed.

Example encodeURIComponent_escapes :
  encodeURIComponent "a b&c=d/e_f-g.h" = "a%20b%26c%3Dd%2Fe_f-g.h".
Proof. reflexivity. Qed.

Example redtrack_abc123 : redtrack "abc123" 4250%Z = abc123Url.
Proof. reflexivity. Qed.

(** The first scenario of the spec: $42.50 pending under abc123, the endpoint
    answers 200 OK. *)
Example settled_scenario :
  fst (fst calmRun)
  = Returned {| success := Some true;
                message :=
                  Some "Daily postback sent successfully and cache cleared";
                totalAmount := Some 4250%Z; clearedEntries := Some 1;
                clickidUsed := Some "abc123"; error := None;
                skipped := None; reason := None; nyTime := None |}
  /\ cached_conversions (snd (fst calmRun)) = []
  /\ map action (map fst (logged (snd calmRun)))
     = ["daily_postback_preparing"; "daily_postback_success";
        "daily_cache_cleared"].
Proof. vm_compute. repeat split; reflexivity. Qed.

(** The second scenario of the spec: $10.00 pending, the endpoint times out. *)
Example timed_out_scenario :
  fst (fst timedOutRun)
  = Returned {| success := Some false;
                message := Some "Daily postback failed - cache not cleared";
                totalAmount := Some 1000%Z; clearedEntries := None;
                clickidUsed := Some "xyz789";
                error :=
                  Some "network timeout at: https://clks.trackthisclicks.com/postback";
                skipped := None; reason := None;
                nyTime := Some "1/9/2024, 11:59:07 PM" |}
  /\ cached_conversions (snd (fst timedOutRun))
     = cached_conversions tenDollars
  /\ map fst (fetches (snd timedOutRun)) = [xyz789Url].
Proof. vm_compute. repeat split; reflexivity. Qed.

(* ===================================================================== *)
(** ** The settlement engine, one invocation *)
(* ===================================================================== *)

(** C4. When the total read from the store is at most 0 the engine returns
    [{success: true, message: 'No cached conversions to process',
    totalAmount: total}], sends no notification and never calls [logPostback];
    this holds for each of the four variants. *)
Theorem no_op_when_total_not_positive :
  forall p env w o w' evs total,
    run (engine p) env w = (o, w', evs) ->
    In (EvGetGlobalCachedTotal (Returned total)) evs ->
    (total <= 0)%Z ->
    o = Returned {| success := Some true;
                    message := Some "No cached conversions to process";
                    totalAmount := Some total;
                    clearedEntries := None; clickidUsed := None;
                    error := None; skipped := None; reason := None;
                    nyTime := None |}
    /\ fetches evs = []
    /\ postbacks evs = []
    /\ postback_history w' = postback_history w.
Proof.
  intros p env w o w' evs total H Hin Hle. destruct w as [c l h d r].
  destruct p; exec H; leaf H; pick_event; try lia;
    repeat split; reflexivity.
Qed.

Lemma no_op_when_total_not_positive_witness :
  fst (fst nothingPendingRun)
  = Returned {| success := Some true;
                message := Some "No cached conversions to process";
                totalAmount := Some 0%Z;
                clearedEntries := None; clickidUsed := None;
                error := None; skipped := None; reason := None;
                nyTime := None |}
  /\ fetches (snd nothingPendingRun) = []
  /\ postbacks (snd nothingPendingRun) = []
  /\ postback_history (snd (fst nothingPendingRun))
     = postback_history nothingPending.
Proof.
  apply (no_op_when_total_not_positive
           Manual (environment jan9 [] ok200) nothingPending
           (fst (fst nothingPendingRun)) (snd (fst nothingPendingRun))
           (snd nothingPendingRun) 0%Z).
  - vm_compute. reflexivity.
  - vm_compute. left. reflexivity.
  - lia.
Defined.

(** C1. When the notification fails (the request is rejected, the status is
    not a success status, or the body cannot be read) the engine never calls
    [clearAllCachedConversions], every pending record is still there, it calls
    [logPostback] exactly once, with [success = false] and the error, and it
    returns a result with [success: false] and that error. *)
Theorem failed_notification_keeps_pending :
  forall p env w o w' evs url r msg,
    run (engine p) env w = (o, w', evs) ->
    In (url, r) (fetches evs) ->
    delivered r = Thrown msg ->
    clears evs = []
    /\ cached_conversions w'
       = (cached_conversions w ++ arrived env 0 (steps evs))%list
    /\ (exists pb ok,
          postbacks evs = [(pb, ok)]
          /\ pb_url pb = url /\ pb_success pb = false
          /\ pb_error pb = Some msg
          /\ postback_history w'
             = (postback_history w ++ (if ok then [pb] else []))%list)
    /\ (exists res,
          o = Returned res
          /\ success res = Some false /\ error res = Some msg).
Proof.
  intros p env w o w' evs url r msg H Hin Hd. destruct w as [c l h d r0].
  destruct p; exec H; leaf H; pick_event; classify.
  all: (split; [reflexivity |]); (split; [same_arrivals |]);
    (split; [do 2 eexists | eexists]); repeat split; reflexivity.
Qed.

Lemma failed_notification_keeps_pending_witness :
  clears (snd timedOutRun) = []
  /\ cached_conversions (snd (fst timedOutRun))
     = (cached_conversions tenDollars
        ++ arrived (environment jan9 [] timedOut) 0
                   (steps (snd timedOutRun)))%list
  /\ (exists pb ok,
        postbacks (snd timedOutRun) = [(pb, ok)]
        /\ pb_url pb = xyz789Url /\ pb_success pb = false
        /\ pb_error pb
           = Some "network timeout at: https://clks.trackthisclicks.com/postback"
        /\ postback_history (snd (fst timedOutRun))
           = (postback_history tenDollars ++ (if ok then [pb] else []))%list)
  /\ (exists res,
        fst (fst timedOutRun) = Returned res
        /\ success res = Some false
        /\ error res
           = Some "network timeout at: https://clks.trackthisclicks.com/postback").
Proof.
  apply (failed_notification_keeps_pending
           Cron (environment jan9 [] timedOut) tenDollars
           (fst (fst timedOutRun)) (snd (fst timedOutRun)) (snd timedOutRun)
           xyz789Url timedOut).
  - vm_compute. reflexivity.
  - vm_compute. left. reflexivity.
  - reflexivity.
Defined.

(** C7. The engine always returns and never throws.  When the read of the
    total, the query for the representative identifier or the clear throws,
    the last thing the engine does is to call [logConversion] with its
    execution-error entry (which is in the audit log whenever the store takes
    the write), and it returns [{success: false, error: <the message>,
    message: ...}].  An audit-log write itself never throws: [logConversion]
    swallows a failed write. *)
Theorem nested_errors_are_caught :
  forall p env w o w' evs,
    run (engine p) env w = (o, w', evs) ->
    (exists res, o = Returned res)
    /\ forall msg,
         In (EvGetGlobalCachedTotal (Thrown msg)) evs
         \/ In (EvSelectClickid (Thrown msg)) evs
         \/ In (EvClearAll (Thrown msg)) evs ->
         (exists text,
            o = Returned {| success := Some false; message := Some text;
                            totalAmount := None; clearedEntries := None;
                            clickidUsed := None; error := Some msg;
                            skipped := None; reason := None;
                            nyTime := None |})
         /\ exists d ok older,
              lastEvent evs = Some (EvLogConversion d ok)
              /\ action d = executionErrorAction p
              /\ conversion_logs w'
                 = (older ++ (if ok
                              then [{| log_data := d; log_date := curdate w |}]
                              else []))%list.
Proof.
  intros p env w o w' evs H. destruct w as [c l h d r].
  destruct p; exec H; leaf H.
  all: split; [eexists; reflexivity | intros msg Hin; pick_event].
  all: split; [eexists; reflexivity | do 3 eexists; repeat split; reflexivity].
Qed.

Lemma nested_errors_are_caught_witness :
  (exists res, fst (fst storeDownRun) = Returned res)
  /\ (exists text,
        fst (fst storeDownRun)
        = Returned {| success := Some false; message := Some text;
                      totalAmount := None; clearedEntries := None;
                      clickidUsed := None; error := Some "connect ETIMEDOUT";
                      skipped := None; reason := None; nyTime := None |})
  /\ exists d ok older,
       lastEvent (snd storeDownRun) = Some (EvLogConversion d ok)
       /\ action d = executionErrorAction Forced
       /\ conversion_logs (snd (fst storeDownRun))
          = (older ++ (if ok
                       then [{| log_data := d;
                                log_date := curdate onePending |}]
                       else []))%list.
Proof.
  destruct (nested_errors_are_caught
              Forced (environment jan9 [0; 1] ok200) onePending
              (fst (fst storeDownRun)) (snd (fst storeDownRun))
              (snd storeDownRun))
    as [Hret Hcaught].
  - vm_compute. reflexivity.
  - split; [exact Hret |].
    apply (Hcaught "connect ETIMEDOUT").
    left. vm_compute. left. reflexivity.
Defined.

(** What follows a confirmed notification: the attempt is recorded, then the
    clear is called, once.  When the clear completes, everything that was
    pending as it ran is deleted and counted and the result reports success;
    when it throws, nothing is deleted and the result reports the error. *)
Lemma confirmed_notification_course :
  forall p env w o w' evs url r body,
    run (engine p) env w = (o, w', evs) ->
    In (url, r) (fetches evs) ->
    delivered r = Returned body ->
    exists total cid k c,
      In (EvGetGlobalCachedTotal (Returned total)) evs
      /\ In (EvSelectClickid (Returned cid)) evs
      /\ url = redtrack (orElse cid (sentinel p)) total
      /\ clearStep evs = Some k
      /\ clears evs = [c]
      /\ match c with
         | Returned n =>
             n = length (cached_conversions w ++ arrived env 0 (S k))%list
             /\ cached_conversions w' = arrived env (S k) (steps evs - S k)
             /\ exists res,
                  o = Returned res
                  /\ success res = Some true
                  /\ totalAmount res = Some total
                  /\ clearedEntries res = Some n
                  /\ clickidUsed res = Some (orElse cid (sentinel p))
                  /\ error res = None
         | Thrown msg =>
             cached_conversions w'
             = (cached_conversions w ++ arrived env 0 (steps evs))%list
             /\ exists res,
                  o = Returned res
                  /\ success res = Some false /\ error res = Some msg
         end.
Proof.
  intros p env w o w' evs url r body H Hin Hd. destruct w as [c0 l h d r0].
  destruct p; exec H; leaf H; pick_event; classify.
  all: do 4 eexists.
  all: split; [find_in |]; split; [find_in |].
  all: do 3 (split; [reflexivity |]); cbv beta iota.
  all: first
         [ split; [f_equal; same_arrivals |];
           split; [same_arrivals | eexists; repeat split; reflexivity]
         | split; [same_arrivals | eexists; repeat split; reflexivity] ].
Qed.

(** C2 as stated fails: the notification is confirmed, the clear then throws;
    the pending record is still there and the result reports a failure. *)
Lemma confirmed_notification_clear_throws :
  fetches (snd clearFailsRun) = [(abc123Url, ok200)]
  /\ delivered ok200 = Returned "OK"
  /\ cached_conversions (snd (fst clearFailsRun))
     = cached_conversions onePending
  /\ fst (fst clearFailsRun)
     = Returned {| success := Some false;
                   message := Some "Daily postback execution error";
                   totalAmount := None; clearedEntries := None;
                   clickidUsed := None; error := Some "connect ETIMEDOUT";
                   skipped := None; reason := None; nyTime := None |}.
Proof. vm_compute. repeat split; reflexivity. Qed.

(** C2, amended.  When the notification is confirmed and the clear completes,
    every record that is pending as the clear runs (those present at the
    start and those that arrived up to that step) is deleted, [clearedEntries]
    is their number, and the result has [success: true], the total read
    before the notification and the representative identifier.  This holds
    for each of the four variants. *)
Theorem confirmed_notification_clears_pending :
  forall p env w o w' evs url r body n,
    run (engine p) env w = (o, w', evs) ->
    In (url, r) (fetches evs) ->
    delivered r = Returned body ->
    In (Returned n) (clears evs) ->
    exists total cid k,
      In (EvGetGlobalCachedTotal (Returned total)) evs
      /\ In (EvSelectClickid (Returned cid)) evs
      /\ clearStep evs = Some k
      /\ n = length (cached_conversions w ++ arrived env 0 (S k))%list
      /\ cached_conversions w' = arrived env (S k) (steps evs - S k)
      /\ exists res,
           o = Returned res
           /\ success res = Some true
           /\ totalAmount res = Some total
           /\ clearedEntries res = Some n
           /\ clickidUsed res = Some (orElse cid (sentinel p)).
Proof.
  intros p env w o w' evs url r body n H Hin Hd Hn.
  destruct (confirmed_notification_course _ _ _ _ _ _ _ _ _ H Hin Hd)
    as (total & cid & k & c & Ht & Hc & _ & Hk & Hcl & Hcase).
  rewrite Hcl in Hn. destruct Hn as [-> | []].
  destruct Hcase as (Hlen & Hleft & res & Ho & Hs & Hta & Hce & Hcu & _).
  exists total, cid, k. repeat split; try assumption.
  exists res. repeat split; assumption.
Qed.

Lemma confirmed_notification_clears_pending_witness :
  exists total cid k,
    In (EvGetGlobalCachedTotal (Returned total)) (snd calmRun)
    /\ In (EvSelectClickid (Returned cid)) (snd calmRun)
    /\ clearStep (snd calmRun) = Some k
    /\ 1 = length (cached_conversions onePending
                   ++ arrived (environment jan9 [] ok200) 0 (S k))%list
    /\ cached_conversions (snd (fst calmRun))
       = arrived (environment jan9 [] ok200) (S k)
                 (steps (snd calmRun) - S k)
    /\ exists res,
         fst (fst calmRun) = Returned res
         /\ success res = Some true
         /\ totalAmount res = Some 4250%Z
         /\ clearedEntries res = Some 1
         /\ clickidUsed res = Some (orElse cid (sentinel Timer)).
Proof.
  destruct (confirmed_notification_clears_pending
              Timer (environment jan9 [] ok200) onePending
              (fst (fst calmRun)) (snd (fst calmRun)) (snd calmRun)
              abc123Url ok200 "OK" 1)
    as (total & cid & k & Ht & Hc & Hk & Hn & Hw & res & Ho & Hs & Hta & He & Hu).
  - vm_compute. reflexivity.
  - vm_compute. left. reflexivity.
  - vm_compute. reflexivity.
  - vm_compute. left. reflexivity.
  - exists total, cid, k. repeat split; try assumption.
    exists res. repeat split; try assumption.
    rewrite Hta. f_equal.
    vm_compute in Ht. destruct Ht as [Ht | Ht].
    + injection Ht as Ht. symmetry. exact Ht.
    + repeat (destruct Ht as [Ht | Ht]; [discriminate Ht |]). destruct Ht.
Defined.

(** Whether the store takes the writes of the logging calls changes neither
    the result, nor the pending set, nor the notification, nor the clear. *)
Lemma dropped_log_writes_change_nothing_else :
  forall p env env' w o w' evs o2 w2 evs2,
    run (engine p) env w = (o, w', evs) ->
    run (engine p) env' w = (o2, w2, evs2) ->
    sameButLogWrites evs env env' ->
    o2 = o
    /\ cached_conversions w2 = cached_conversions w'
    /\ fetches evs2 = fetches evs
    /\ clears evs2 = clears evs.
Proof.
  intros p env env' w o w' evs o2 w2 evs2 H H2 (Hnow & Harr & Hnet & Hsf).
  destruct w as [c l h d r].
  destruct p; exec H; leaf H.
  all: unfold_engines H2; step H2;
    repeat (replay H2 env env' Hnow Harr Hnet Hsf; step H2).
  all: rewrite <- ?Harr in H2; leaf H2; repeat split; reflexivity.
Qed.

(** C8.  When the notification is confirmed and the store fails to write the
    attempt or an audit entry, the failure is swallowed by the logging helper
    and the engine goes on to the clear.  The failure masks nothing: in any
    environment that differs only in whether the store takes the writes of
    the logging calls (the one where it takes them all, for instance) the run
    has the same result, leaves the same pending records, and makes the same
    request and the same clear; and whenever the clear completes there, it
    completes here, everything pending as it runs is deleted, and the result
    reports success with that count.  This holds for each of the four
    variants. *)
Theorem dropped_log_does_not_mask_settlement :
  forall p env env' w o w' evs url r body,
    run (engine p) env w = (o, w', evs) ->
    In (url, r) (fetches evs) ->
    delivered r = Returned body ->
    (exists pb, In (pb, false) (postbacks evs))
    \/ (exists d, In (d, false) (logged evs)) ->
    sameButLogWrites evs env env' ->
    (exists c, clears evs = [c])
    /\ fst (fst (run (engine p) env' w)) = o
    /\ cached_conversions (snd (fst (run (engine p) env' w)))
       = cached_conversions w'
    /\ fetches (snd (run (engine p) env' w)) = fetches evs
    /\ clears (snd (run (engine p) env' w)) = clears evs
    /\ (forall n,
          In (Returned n) (clears (snd (run (engine p) env' w))) ->
          exists k res,
            clearStep evs = Some k
            /\ cached_conversions w' = arrived env (S k) (steps evs - S k)
            /\ o = Returned res
            /\ success res = Some true /\ clearedEntries res = Some n).
Proof.
  intros p env env' w o w' evs url r body H Hin Hd _ Hsame.
  destruct (run (engine p) env' w) as [[o2 w2] evs2] eqn:H2.
  destruct (dropped_log_writes_change_nothing_else
              _ _ _ _ _ _ _ _ _ _ H H2 Hsame) as (Ho & Hc & Hf & Hcl2).
  destruct (confirmed_notification_course _ _ _ _ _ _ _ _ _ H Hin Hd)
    as (total & cid & k & c & _ & _ & _ & Hk & Hcl & Hcase).
  cbn [fst snd]. split; [exists c; exact Hcl |].
  do 4 (split; [assumption |]).
  intros n Hn. rewrite Hcl2, Hcl in Hn. destruct Hn as [-> | []].
  destruct Hcase as (_ & Hleft & res & Hres & Hs & _ & Hce & _).
  exists k, res. repeat split; assumption.
Qed.

Lemma dropped_log_does_not_mask_settlement_witness :
  (exists c, clears (snd historyDroppedRun) = [c])
  /\ fst (fst calmRun) = fst (fst historyDroppedRun)
  /\ cached_conversions (snd (fst calmRun))
     = cached_conversions (snd (fst historyDroppedRun))
  /\ fetches (snd calmRun) = fetches (snd historyDroppedRun)
  /\ clears (snd calmRun) = clears (snd historyDroppedRun)
  /\ (forall n,
        In (Returned n) (clears (snd calmRun)) ->
        exists k res,
          clearStep (snd historyDroppedRun) = Some k
          /\ cached_conversions (snd (fst historyDroppedRun))
             = arrived (environment jan9 [5] ok200) (S k)
                       (steps (snd historyDroppedRun) - S k)
          /\ fst (fst historyDroppedRun) = Returned res
          /\ success res = Some true /\ clearedEntries res = Some n).
Proof.
  apply (dropped_log_does_not_mask_settlement
           Timer (environment jan9 [5] ok200) (environment jan9 [] ok200)
           onePending
           (fst (fst historyDroppedRun)) (snd (fst historyDroppedRun))
           (snd historyDroppedRun) abc123Url ok200 "OK").
  - vm_compute. reflexivity.
  - vm_compute. left. reflexivity.
  - vm_compute. reflexivity.
  - left. eexists. vm_compute. left. reflexivity.
  - split; [reflexivity |]. split; [reflexivity |]. split; [reflexivity |].
    intros k e Hk He.
    do 8 (destruct k as [| k];
          [vm_compute in Hk; injection Hk as <-;
           first [discriminate He | reflexivity] |]).
    vm_compute in Hk. destruct k; discriminate Hk.
Defined.

(* ===================================================================== *)
(** ** The persisted duplicate-run check *)
(* ===================================================================== *)

Lemma filter_nonempty {A} (f : A -> bool) (l : list A) :
  (0 <? length (filter f l))%nat = true <-> exists x, In x l /\ f x = true.
Proof.
  rewrite Nat.ltb_lt. induction l as [| a l IH]; cbn [filter].
  - cbn. split; [lia | intros (x & [] & _)].
  - destruct (f a) eqn:Ha.
    + cbn [length]. split; [intros _; exists a; split; [left |]; easy | lia].
    + rewrite IH. split; intros (x & Hx & Hf).
      * exists x. split; [right |]; assumption.
      * destruct Hx as [-> | Hx]; [congruence | exists x; split; assumption].
Qed.

Lemma tag_listed (tags : list string) (a : string) :
  existsb (String.eqb a) tags = true <-> In a tags.
Proof.
  rewrite existsb_exists. split.
  - intros (x & Hx & He). apply String.eqb_eq in He. subst. assumption.
  - intros H. exists a. split; [assumption | apply String.eqb_refl].
Qed.

(** What the check returns when its query goes through. *)
Lemma check_when_store_answers :
  forall env w,
    storeFault env 0 = None ->
    exists b,
      fst (fst (run CronDailyPostback.checkIfAlreadyRanToday env w))
      = Returned b
      /\ (b = true <-> loggedToday (successTags Cron) w).
Proof.
  intros env w Hok. destruct w as [c l h d r].
  unfold run, CronDailyPostback.checkIfAlreadyRanToday.
  cbv beta iota zeta delta
      [try_catch bind ret getPool countLogsToday storeCall arrive set_cached
       cached_conversions conversion_logs postback_history curdate
       lastDailyRun fst snd steps snoc].
  rewrite Hok. cbv beta iota zeta delta [fst snd].
  eexists. split; [reflexivity |].
  rewrite filter_nonempty. unfold loggedToday. cbn [conversion_logs curdate].
  split; intros (e & Hin & H).
  - apply andb_prop in H as [Ht Hd]. apply tag_listed in Ht.
    apply Nat.eqb_eq in Hd. exists e. repeat split; assumption.
  - destruct H as [Hd Ht]. exists e. split; [assumption |].
    apply andb_true_intro. split; [apply tag_listed; assumption |].
    apply Nat.eqb_eq. assumption.
Qed.

(** C6. When the query of the persisted check throws, the check returns
    [false] ("not yet run") and does not throw, whatever the state it is
    called in. *)
Theorem check_fails_open :
  forall env s msg,
    storeFault env (steps (snd s)) = Some msg ->
    fst (CronDailyPostback.checkIfAlreadyRanToday env s) = Returned false
    /\ snd (snd (CronDailyPostback.checkIfAlreadyRanToday env s))
       = snoc (snd s) (EvCountRuns (Thrown msg)).
Proof.
  intros env s msg Hdown.
  unfold CronDailyPostback.checkIfAlreadyRanToday.
  cbv beta iota zeta delta
      [try_catch bind ret getPool countLogsToday storeCall].
  rewrite Hdown. split; reflexivity.
Qed.

Lemma check_fails_open_witness :
  fst (CronDailyPostback.checkIfAlreadyRanToday
         (environment jan9 [0] ok200) (onePending, []))
  = Returned false
  /\ snd (snd (CronDailyPostback.checkIfAlreadyRanToday
                 (environment jan9 [0] ok200) (onePending, [])))
     = snoc [] (EvCountRuns (Thrown "connect ETIMEDOUT")).
Proof.
  apply (check_fails_open (environment jan9 [0] ok200) (onePending, [])
                          "connect ETIMEDOUT").
  vm_compute. reflexivity.
Defined.

(** So a failed check does not block the settlement: the cron engine goes on
    to read the total. *)
Lemma cron_engine_goes_on_when_check_fails :
  forall env w o w' evs nyTime msg,
    run (engine Cron) env w = (o, w', evs) ->
    now env = Returned nyTime ->
    storeFault env 0 = Some msg ->
    exists r rest,
      evs = EvCountRuns (Thrown msg) :: EvGetGlobalCachedTotal r :: rest.
Proof.
  intros env w o w' evs nyTime msg H Hnow Hdown. destruct w as [c l h d r].
  unfold_engines H. step H. rewrite Hnow in H. step H.
  rewrite Hdown in H. step H.
  repeat (branch H; step H). all: leaf H; do 2 eexists; reflexivity.
Qed.

(** C5 as stated fails: after a settlement by the timer path the audit log
    holds today's [daily_postback_success] and [daily_cache_cleared] entries,
    the query goes through, and the cron path's check returns [false]. *)
Lemma timer_settlement_unseen_by_cron_check :
  loggedToday (successTags Timer) (snd (fst calmRun))
  /\ snd checkAfterTimerRun = [EvCountRuns (Returned 0)]
  /\ fst (fst checkAfterTimerRun) = Returned false.
Proof.
  split; [| vm_compute; split; reflexivity].
  eexists. vm_compute. split; [right; left; reflexivity |].
  split; [reflexivity | left; reflexivity].
Qed.

(** C5, amended.  When its query goes through, the cron path's check returns
    [true] exactly when the audit log holds an entry of today tagged
    [cron_postback_success] or [cron_cache_cleared], the two tags the cron
    path itself writes; entries of the timer, manual and forced paths do not
    count. *)
Theorem cron_check_sees_cron_settlements :
  forall env w,
    storeFault env 0 = None ->
    (fst (fst (run CronDailyPostback.checkIfAlreadyRanToday env w))
     = Returned true
     <-> exists e, In e (conversion_logs w)
                   /\ log_date e = curdate w
                   /\ (action (log_data e) = "cron_postback_success"
                       \/ action (log_data e) = "cron_cache_cleared")).
Proof.
  intros env w Hok.
  destruct (check_when_store_answers env w Hok) as (b & -> & Hb).
  unfold loggedToday, successTags in Hb. cbn [In] in Hb.
  split.
  - intros Heq. injection Heq as ->. destruct (proj1 Hb eq_refl)
      as (e & Hin & Hd & [Ht | [Ht | []]]);
      exists e; repeat split; auto.
  - intros (e & Hin & Hd & Ht). f_equal. apply Hb.
    exists e. repeat split; try assumption.
    destruct Ht as [Ht | Ht]; [left | right; left]; symmetry; exact Ht.
Qed.

Lemma cron_check_sees_cron_settlements_witness :
  fst (fst checkAfterCronRun) = Returned true.
Proof.
  apply (proj2 (cron_check_sees_cron_settlements
                  (environment jan9 [] ok200)
                  (snd (fst (run (engine Cron) (environment jan9 [] ok200)
                                 onePending)))
                  eq_refl)).
  eexists. vm_compute. split; [right; left; reflexivity |].
  split; [reflexivity | left; reflexivity].
Defined.

(* ===================================================================== *)
(** ** Two invocations of the cron engine *)
(* ===================================================================== *)

(** One invocation of the cron engine sends at most one notification and
    clears at most once, and only after a confirmed notification; a confirmed
    notification is in the audit log under [cron_postback_success], dated
    today, when the store took every entry. *)
Lemma cron_run_ledger :
  forall env w o w' evs,
    run (engine Cron) env w = (o, w', evs) ->
    length (fetches evs) <= 1
    /\ length (clears evs) <= 1
    /\ (clears evs <> [] -> confirmations evs <> [])
    /\ (confirmations evs <> [] ->
        (forall d, ~ In (d, false) (logged evs)) ->
        loggedToday (successTags Cron) w').
Proof.
  intros env w o w' evs H. destruct w as [c l h d r].
  exec H; leaf H; unfold confirmations;
    cbn [fetches clears logged length filter snd delivered];
    know_status; cbn [filter].
  all: split; [lia |]; split; [lia |]; split; [congruence |].
  all: intros Hconf Hall; try congruence.
  all: repeat match goal with
         | |- context [accepted ?e ?k] =>
             destruct (accepted e k) eqn:?
         | Hacc : accepted ?e ?k = _, Hx : context [accepted ?e ?k] |- _ =>
             rewrite Hacc in Hx
         end.
  all: try solve [ exfalso; eapply Hall; find_in ].
  all: match goal with
       | |- context [ {| log_data :=
                           CronDailyPostback.cron_postback_success ?a ?b ?t;
                         log_date := ?n |} ] =>
           exists {| log_data :=
                       CronDailyPostback.cron_postback_success a b t;
                     log_date := n |}
       end.
  all: split; [| split; [reflexivity | left; reflexivity]].
  all: cbn [conversion_logs];
    repeat first [ apply in_or_app; right; left; reflexivity
                 | apply in_or_app; left ].
Qed.

(** With a confirmed settlement of today in the audit log and the query going
    through, the cron engine skips: no notification, no clear. *)
Lemma cron_skips_when_logged :
  forall env w o w' evs,
    run (engine Cron) env w = (o, w', evs) ->
    loggedToday (successTags Cron) w ->
    (forall msg, ~ In (EvCountRuns (Thrown msg)) evs) ->
    fetches evs = [] /\ clears evs = [].
Proof.
  intros env w o w' evs H (e & Hin & Hdate & Htag) Hquery.
  assert (Hpos : 0 < length
            (filter (fun x => existsb (String.eqb (action (log_data x)))
                                      (successTags Cron)
                              && (log_date x =? curdate w)%nat)
                    (conversion_logs w))).
  { apply Nat.ltb_lt. apply filter_nonempty. exists e. split; [assumption |].
    apply andb_true_intro. split; [apply tag_listed; assumption |].
    apply Nat.eqb_eq; assumption. }
  destruct w as [c l h d r]. cbn [conversion_logs curdate successTags] in Hpos.
  exec H; leaf H.
  all: try solve [ exfalso; eapply Hquery; find_in ].
  all: try solve [ exfalso; apply (Nat.lt_irrefl 0);
                   eapply Nat.lt_le_trans; [exact Hpos | eassumption] ].
  all: repeat split; reflexivity.
Qed.

(** C3 as stated fails: two cron invocations on the same day, the audit log
    and its query working throughout; the endpoint answers the first with a
    503, so the second sends the notification again: two are sent. *)
Lemma failed_notification_is_sent_again :
  In (EvCountRuns (Returned 0)) (snd firstAttemptRun)
  /\ In (EvCountRuns (Returned 0)) (snd secondAttemptRun)
  /\ (forall d, ~ In (d, false)
                   (logged (snd firstAttemptRun ++ snd secondAttemptRun)))
  /\ map fst (fetches (snd firstAttemptRun)
              ++ fetches (snd secondAttemptRun))%list
     = [abc123Url; abc123Url]
  /\ (clears (snd firstAttemptRun) ++ clears (snd secondAttemptRun))%list
     = [Returned 1].
Proof.
  vm_compute. repeat split; try (left; reflexivity).
  intros d H. repeat (destruct H as [H | H]; [discriminate H |]).
  destruct H.
Qed.

(** Why the audit entries of the first invocation must have been written:
    when the store drops them the second invocation finds nothing, and a
    record that arrived meanwhile is settled by a second notification and a
    second clear. *)
Lemma unlogged_settlement_is_not_seen :
  In (EvCountRuns (Returned 0)) (snd afterUnloggedRun)
  /\ length (confirmations (snd unloggedSettledRun)
             ++ confirmations (snd afterUnloggedRun)) = 2
  /\ (clears (snd unloggedSettledRun) ++ clears (snd afterUnloggedRun))%list
     = [Returned 1; Returned 1].
Proof. vm_compute. repeat split. left. reflexivity. Qed.

(** C3, amended.  For two cron invocations one after the other on the same
    day, when the second one's audit-log query goes through and the store
    took every audit entry of the first: at most one notification is
    confirmed and the pending set is cleared at most once over the two, and
    once the first has a confirmed notification the second sends nothing and
    clears nothing. *)
Theorem at_most_one_confirmed_settlement :
  forall env1 env2 w o1 w1 evs1 o2 w2 evs2,
    run (engine Cron) env1 w = (o1, w1, evs1) ->
    run (engine Cron) env2 w1 = (o2, w2, evs2) ->
    (forall msg, ~ In (EvCountRuns (Thrown msg)) evs2) ->
    (forall d, ~ In (d, false) (logged evs1)) ->
    length (confirmations evs1 ++ confirmations evs2) <= 1
    /\ length (clears evs1 ++ clears evs2) <= 1
    /\ (confirmations evs1 <> [] -> fetches evs2 = [] /\ clears evs2 = []).
Proof.
  intros env1 env2 w o1 w1 evs1 o2 w2 evs2 H1 H2 Hquery Hlogged.
  destruct (cron_run_ledger _ _ _ _ _ H1) as (Hf1 & Hc1 & Hcc1 & Hlog1).
  destruct (cron_run_ledger _ _ _ _ _ H2) as (Hf2 & Hc2 & _ & _).
  assert (Hk1 : length (confirmations evs1) <= 1).
  { unfold confirmations. etransitivity; [apply filter_length_le | exact Hf1]. }
  assert (Hk2 : length (confirmations evs2) <= 1).
  { unfold confirmations. etransitivity; [apply filter_length_le | exact Hf2]. }
  assert (Hskip : confirmations evs1 <> [] ->
                  fetches evs2 = [] /\ clears evs2 = []).
  { intros Hconf.
    exact (cron_skips_when_logged _ _ _ _ _ H2 (Hlog1 Hconf Hlogged) Hquery). }
  rewrite !length_app.
  destruct (confirmations evs1) as [| x xs] eqn:Hconf.
  - destruct (clears evs1) as [| y ys]; [| exfalso; apply Hcc1; congruence].
    cbn [length]. split; [lia | split; [lia |]].
    intros Hne. exfalso. apply Hne. reflexivity.
  - destruct Hskip as [Hf Hc]; [discriminate |].
    unfold confirmations in Hk2 |- *. rewrite Hf in *. rewrite Hc.
    cbn [filter length] in *. split; [lia | split; [lia |]].
    intros _. split; reflexivity.
Qed.

Lemma at_most_one_confirmed_settlement_witness :
  length (confirmations (snd firstSettledRun)
          ++ confirmations (snd afterSettledRun)) <= 1
  /\ length (clears (snd firstSettledRun) ++ clears (snd afterSettledRun)) <= 1
  /\ (confirmations (snd firstSettledRun) <> [] ->
      fetches (snd afterSettledRun) = [] /\ clears (snd afterSettledRun) = []).
Proof.
  apply (at_most_one_confirmed_settlement
           (environment jan9 [] ok200) (environment jan9 [] ok200) onePending
           (fst (fst firstSettledRun)) (snd (fst firstSettledRun))
           (snd firstSettledRun)
           (fst (fst afterSettledRun)) (snd (fst afterSettledRun))
           (snd afterSettledRun)).
  - vm_compute. reflexivity.
  - vm_compute. reflexivity.
  - vm_compute. intros msg H.
    repeat (destruct H as [H | H]; [discriminate H |]). destruct H.
  - vm_compute. intros d H.
    repeat (destruct H as [H | H]; [discriminate H |]). destruct H.
Defined.

(* ===================================================================== *)
(** ** The timer path *)
(* ===================================================================== *)

(** C9 as stated fails: in a process that already ran today the timer path
    returns [{skipped: true, reason: 'Already ran today'}], an object with
    neither a [success] nor a [message] key. *)
Lemma skip_result_lacks_success_and_message :
  fst (fst markedRun)
  = Returned {| success := None; message := None; totalAmount := None;
                clearedEntries := None; clickidUsed := None; error := None;
                skipped := Some true; reason := Some "Already ran today";
                nyTime := None |}.
Proof. vm_compute. reflexivity. Qed.

(** C9, amended.  Every invocation of the engine, in each of its four
    variants, returns a result with a boolean [success] and a [message].
    The timer path, when it can read the clock, returns either such a result
    or, when it skips, an object [{skipped: true, reason}] that has neither
    key. *)
Theorem results_are_structured :
  (forall p env w,
     exists res b text,
       fst (fst (run (engine p) env w)) = Returned res
       /\ success res = Some b /\ message res = Some text)
  /\ (forall env w,
        exists res,
          fst (fst (run Scheduler.checkAndRunDailyPostback env w))
          = Returned res
          /\ ((skipped res = Some true
               /\ (exists why, reason res = Some why)
               /\ success res = None /\ message res = None)
              \/ (exists b text,
                    success res = Some b /\ message res = Some text)
              \/ (exists msg, now env = Thrown msg))).
Proof.
  split.
  - intros p env w.
    destruct (run (engine p) env w) as [[o w'] evs] eqn:H.
    destruct w as [c l h d r].
    destruct p; exec H; leaf H; do 3 eexists; repeat split; reflexivity.
  - intros env w.
    destruct (run Scheduler.checkAndRunDailyPostback env w)
      as [[o w'] evs] eqn:H.
    destruct w as [c l h d r].
    exec H; leaf H; eexists; (split; [reflexivity |]).
    all: first [ left; repeat split; [eexists; reflexivity]
               | right; left; do 2 eexists; split; reflexivity
               | right; right; eexists; reflexivity ].
Qed.

(** A timer invocation on the date of the marker skips at once: no step is
    taken and the state is left as it was. *)
Lemma marked_date_skips :
  forall env w nyTime,
    now env = Returned nyTime ->
    Scheduler.sameDate (lastDailyRun w) (toDateString nyTime) = true ->
    run Scheduler.checkAndRunDailyPostback env w
    = (Returned {| success := None; message := None; totalAmount := None;
                   clearedEntries := None; clickidUsed := None;
                   error := None; skipped := Some true;
                   reason := Some "Already ran today"; nyTime := None |},
       w, []).
Proof.
  intros env w nyTime Hnow Hsame. destruct w as [c l h d r].
  unfold run, Scheduler.checkAndRunDailyPostback.
  cbv beta iota zeta delta [try_catch bind ret getNow getLastDailyRun fst snd].
  rewrite Hnow. cbv beta iota. rewrite Hsame. reflexivity.
Qed.

(** C10.  A timer invocation that passes the marker check and the window
    check sets [lastDailyRun] to today's date string whatever the settlement
    then does; every later timer invocation in the process on that date
    returns [{skipped: true, reason: 'Already ran today'}] without taking a
    single step, so without invoking the engine. *)
Theorem marker_is_set_before_settlement :
  forall env w nyTime o w1 evs,
    run Scheduler.checkAndRunDailyPostback env w = (o, w1, evs) ->
    now env = Returned nyTime ->
    Scheduler.sameDate (lastDailyRun w) (toDateString nyTime) = false ->
    getHours nyTime = 23 ->
    getMinutes nyTime = 59 ->
    lastDailyRun w1 = Some (toDateString nyTime)
    /\ forall later,
         Forall (fun e => exists t, now e = Returned t
                                    /\ toDateString t = toDateString nyTime)
                later ->
         runEach Scheduler.checkAndRunDailyPostback later w1
         = (map (fun _ =>
                   (Returned {| success := None; message := None;
                                totalAmount := None; clearedEntries := None;
                                clickidUsed := None; error := None;
                                skipped := Some true;
                                reason := Some "Already ran today";
                                nyTime := None |}, []))
                later,
            w1).
Proof.
  intros env w nyTime o w1 evs H Hnow Hfresh Hh Hm.
  assert (Hmark : lastDailyRun w1 = Some (toDateString nyTime)).
  { destruct w as [c l h d r]. cbn [lastDailyRun] in Hfresh.
    unfold_engines H. step H. rewrite Hnow in H. step H.
    rewrite Hfresh, Hh, Hm in H. cbn [Nat.eqb] in H. step H.
    repeat (branch H; step H). all: leaf H; reflexivity. }
  split; [exact Hmark |].
  induction later as [| e later IH]; intros Hdates; [reflexivity |].
  inversion Hdates as [| ? ? (t & Ht & He) Hrest]; subst.
  cbn [runEach map].
  rewrite (marked_date_skips e w1 t Ht).
  - rewrite (IH Hrest). reflexivity.
  - rewrite Hmark, He. cbn [Scheduler.sameDate]. apply String.eqb_refl.
Qed.

Lemma marker_is_set_before_settlement_witness :
  lastDailyRun (snd (fst windowRun)) = Some "Tue Jan 09 2024"
  /\ runEach Scheduler.checkAndRunDailyPostback
             [environment jan9 [] ok200; environment jan9 [0] timedOut]
             (snd (fst windowRun))
     = ([(Returned {| success := None; message := None;
                      totalAmount := None; clearedEntries := None;
                      clickidUsed := None; error := None;
                      skipped := Some true;
                      reason := Some "Already ran today";
                      nyTime := None |}, []);
         (Returned {| success := None; message := None;
                      totalAmount := None; clearedEntries := None;
                      clickidUsed := None; error := None;
                      skipped := Some true;
                      reason := Some "Already ran today";
                      nyTime := None |}, [])],
        snd (fst windowRun)).
Proof.
  destruct (marker_is_set_before_settlement
              (environment jan9 [] timedOut) onePending jan9
              (fst (fst windowRun)) (snd (fst windowRun)) (snd windowRun))
    as [Hmark Hlater].
  - vm_compute. reflexivity.
  - reflexivity.
  - reflexivity.
  - reflexivity.
  - reflexivity.
  - split; [exact Hmark |].
    apply (Hlater [environment jan9 [] ok200; environment jan9 [0] timedOut]).
    repeat constructor; exists jan9; split; reflexivity.
Defined.

(* ===================================================================== *)
(** ** Totals, the latest record and the notification URL *)
(* ===================================================================== *)

(** The total of two batches of pending records. *)
Lemma sumAmounts_app (a b : list CachedConversion) :
  sumAmounts (a ++ b) = (sumAmounts a + sumAmounts b)%Z.
Proof.
  unfold sumAmounts. induction a as [| x a IH]; cbn [app fold_right].
  - reflexivity.
  - rewrite IH. apply Z.add_assoc.
Qed.



Lemma everyChar_app f a b :
  everyChar f (a ++ b) = everyChar f a && everyChar f b.
Proof.
  induction a as [| c a IH]; cbn [append everyChar]; [reflexivity |].
  rewrite IH. apply andb_assoc.
Qed.

(** [encodeURIComponent] leaves a string of unreserved characters as it is. *)
Lemma encode_unreserved s :
  everyChar uriUnreserved s = true -> encodeURIComponent s = s.
Proof.
  induction s as [| c s IH]; cbn [everyChar encodeURIComponent];
    [reflexivity |].
  intros H. apply andb_prop in H as [Hc Hs]. rewrite Hc, (IH Hs). reflexivity.
Qed.

Lemma hex_is_unreserved c :
  uriUnreserved (hexDigit (nat_of_ascii c / 16)) = true
  /\ uriUnreserved (hexDigit (nat_of_ascii c mod 16)) = true.
Proof. destruct c as [[] [] [] [] [] [] [] []]; split; reflexivity. Qed.

(** Whatever the string, its encoding holds unreserved characters and escapes only. *)
Lemma encoded_is_uri_safe :
  forall s, everyChar uriSafe (encodeURIComponent s) = true.
Proof.
  induction s as [| c s IH]; cbn [encodeURIComponent everyChar];
    [reflexivity |].
  destruct (uriUnreserved c) eqn:Hc; cbn [everyChar].
  - rewrite IH. unfold uriSafe. rewrite Hc. reflexivity.
  - rewrite IH. destruct (hex_is_unreserved c) as [H1 H2].
    unfold uriSafe. rewrite H1, H2. reflexivity.
Qed.

Lemma digits_unreserved d :
  everyChar uriUnreserved (NilEmpty.string_of_uint d) = true.
Proof. induction d; cbn [NilEmpty.string_of_uint everyChar]; auto. Qed.

Lemma natToString_unreserved n : everyChar uriUnreserved (natToString n) = true.
Proof.
  unfold natToString, NilZero.string_of_uint.
  pose proof (digits_unreserved (Nat.to_uint n)) as H.
  destruct (Nat.to_uint n); [reflexivity | exact H ..].
Qed.

Lemma padStart2_unreserved s :
  everyChar uriUnreserved s = true -> everyChar uriUnreserved (padStart2 s) = true.
Proof.
  destruct s as [| c [| c' s]]; cbn [padStart2]; intros H;
    [reflexivity | | exact H].
  cbn [everyChar] in *. rewrite H. reflexivity.
Qed.

(** [encodeURIComponent(totalCached)]: the printed amount has nothing to escape. *)
Lemma number_needs_no_escape :
  forall x, encodeURIComponent (numberToString x) = numberToString x.
Proof.
  intros x. apply encode_unreserved. unfold numberToString.
  rewrite !everyChar_app, natToString_unreserved.
  destruct (x <? 0)%Z; cbn [everyChar andb];
    (destruct (_ =? 0)%nat; [reflexivity |]);
    rewrite everyChar_app; cbn [everyChar andb];
    (destruct (_ =? 0)%nat;
     [apply natToString_unreserved
     | apply padStart2_unreserved, natToString_unreserved]).
Qed.

(** X1. For an amount that prints as a decimal (below 1e13), the notification
    URL ([redtrackUrl] of the four engines) is the fixed endpoint, the encoded
    identifier, [&sum=] and the amount as [String] prints it: encoding the
    amount changes nothing, the encoded identifier holds only unreserved
    characters and [%] escapes (no [&], [=], [#] or space of the identifier
    reaches the query string), and an identifier of unreserved characters is
    sent as it is. *)
Theorem notification_url_is_well_formed :
  forall clickid total,
    printsAsDecimal total ->
    exists enc,
      redtrack clickid total
      = "https://clks.trackthisclicks.com/postback?clickid=" ++ enc
        ++ "&sum=" ++ numberToString total
      /\ enc = encodeURIComponent clickid
      /\ everyChar uriSafe enc = true
      /\ (everyChar uriUnreserved clickid = true -> enc = clickid).
Proof.
  intros clickid total _. exists (encodeURIComponent clickid). unfold redtrack.
  rewrite number_needs_no_escape. split; [reflexivity |].
  split; [reflexivity |]. split; [apply encoded_is_uri_safe |].
  apply encode_unreserved.
Qed.

Lemma notification_url_is_well_formed_witness :
  exists enc,
    redtrack "ab&c 1" 4250%Z
    = "https://clks.trackthisclicks.com/postback?clickid=" ++ enc
      ++ "&sum=" ++ "42.5"
    /\ enc = "ab%26c%201"
    /\ everyChar uriSafe enc = true
    /\ (everyChar uriUnreserved "ab&c 1" = true -> enc = "ab&c 1").
Proof.
  apply (notification_url_is_well_formed "ab&c 1" 4250%Z).
  vm_compute. reflexivity.
Defined.

(* ===================================================================== *)
(** ** The ledger of one run *)
(* ===================================================================== *)

(** X2. A run of any of the four engines makes at most one request and at
    most one clear, calls [logPostback] once for each request it makes, and
    clears only after recording an attempt marked successful. *)
Theorem one_run_sends_and_clears_at_most_once :
  forall p env w o w' evs,
    run (engine p) env w = (o, w', evs) ->
    length (fetches evs) <= 1
    /\ length (postbacks evs) = length (fetches evs)
    /\ length (clears evs) <= 1
    /\ (clears evs <> [] ->
        exists pb ok, postbacks evs = [(pb, ok)] /\ pb_success pb = true).
Proof.
  intros p env w o w' evs H. destruct w as [c l h d r0].
  destruct p; exec H; leaf H; cbn [fetches postbacks clears length].
  all: split; [lia |]; split; [reflexivity |]; split; [lia |].
  all: first [ intros Hc; exfalso; apply Hc; reflexivity
             | intros _; do 2 eexists; split; reflexivity ].
Qed.

Lemma one_run_sends_and_clears_at_most_once_witness :
  length (fetches (snd raceRun)) <= 1
  /\ length (postbacks (snd raceRun)) = length (fetches (snd raceRun))
  /\ length (clears (snd raceRun)) <= 1
  /\ (clears (snd raceRun) <> [] ->
      exists pb ok,
        postbacks (snd raceRun) = [(pb, ok)] /\ pb_success pb = true).
Proof.
  apply (one_run_sends_and_clears_at_most_once
           Timer arrivesDuringFetch twoPending
           (fst (fst raceRun)) (snd (fst raceRun)) (snd raceRun)).
  vm_compute. reflexivity.
Defined.

(** X3. The attempt a run hands to [logPostback] records what was sent: its
    URL is the one requested, built from its identifier and its amount; its
    amount is the total read, which is positive; and it is marked successful
    with the response body, or failed with the error and an empty response,
    as the request was confirmed or not. *)
Theorem attempt_records_what_was_sent :
  forall p env w o w' evs pb ok,
    run (engine p) env w = (o, w', evs) ->
    In (pb, ok) (postbacks evs) ->
    exists r,
      fetches evs = [(pb_url pb, r)]
      /\ pb_url pb = redtrack (pb_clickid pb) (pb_amount pb)
      /\ In (EvGetGlobalCachedTotal (Returned (pb_amount pb))) evs
      /\ (0 < pb_amount pb)%Z
      /\ match delivered r with
         | Returned body =>
             pb_success pb = true /\ pb_response pb = body
             /\ pb_error pb = None
         | Thrown msg =>
             pb_success pb = false /\ pb_response pb = EmptyString
             /\ pb_error pb = Some msg
         end.
Proof.
  intros p env w o w' evs pb ok H Hin. destruct w as [c l h d r0].
  destruct p; exec H; leaf H; pick_event.
  all: eexists; split; [reflexivity |]; split; [reflexivity |];
    split; [find_in |]; split; [assumption |];
    cbn [delivered]; know_status; cbv beta iota; repeat split; reflexivity.
Qed.

Lemma attempt_records_what_was_sent_witness :
  exists r,
    fetches (snd manualTimedOutRun) = [(pb_url timedOutAttempt, r)]
    /\ pb_url timedOutAttempt
       = redtrack (pb_clickid timedOutAttempt) (pb_amount timedOutAttempt)
    /\ In (EvGetGlobalCachedTotal (Returned (pb_amount timedOutAttempt)))
          (snd manualTimedOutRun)
    /\ (0 < pb_amount timedOutAttempt)%Z
    /\ match delivered r with
       | Returned body =>
           pb_success timedOutAttempt = true
           /\ pb_response timedOutAttempt = body
           /\ pb_error timedOutAttempt = None
       | Thrown msg =>
           pb_success timedOutAttempt = false
           /\ pb_response timedOutAttempt = EmptyString
           /\ pb_error timedOutAttempt = Some msg
       end.
Proof.
  apply (attempt_records_what_was_sent
           Manual (environment jan9 [] timedOut) tenDollars
           (fst (fst manualTimedOutRun)) (snd (fst manualTimedOutRun))
           (snd manualTimedOutRun) timedOutAttempt true).
  - vm_compute. reflexivity.
  - vm_compute. left. reflexivity.
Defined.

(** X4. What a run leaves in the store: the audit log and the attempt history
    are the old ones followed by the rows of the run's logging calls that the
    store took (nothing is rewritten or removed, every new audit row carries
    the date of the run); the date and the timer's marker are untouched by
    the engines; and the pending table either has only grown by what arrived,
    or was cleared once and holds what arrived after the clear. *)
Theorem tables_only_grow_by_what_a_run_logs :
  forall p env w o w' evs,
    run (engine p) env w = (o, w', evs) ->
    conversion_logs w'
    = (conversion_logs w ++ auditRows (curdate w) evs)%list
    /\ postback_history w' = (postback_history w ++ attemptRows evs)%list
    /\ curdate w' = curdate w
    /\ lastDailyRun w' = lastDailyRun w
    /\ (cached_conversions w'
        = (cached_conversions w ++ arrived env 0 (steps evs))%list
        \/ exists k n,
             clearStep evs = Some k /\ clears evs = [Returned n]
             /\ cached_conversions w' = arrived env (S k) (steps evs - S k)).
Proof.
  intros p env w o w' evs H. destruct w as [c l h d r0].
  destruct p; exec H; leaf H.
  all: split;
    [ unfold auditRows;
      cbn [logged flat_map fst snd conversion_logs curdate app];
      rewrite <- ?app_assoc, ?app_nil_r; reflexivity |].
  all: split;
    [ unfold attemptRows;
      cbn [postbacks flat_map fst snd postback_history app];
      rewrite <- ?app_assoc, ?app_nil_r; reflexivity |].
  all: split; [reflexivity |]; split; [reflexivity |].
  all: first
         [ left; same_arrivals
         | right; do 2 eexists; split; [reflexivity |];
           split; [reflexivity |]; same_arrivals ].
Qed.

Lemma tables_only_grow_by_what_a_run_logs_witness :
  conversion_logs (snd (fst raceRun))
  = (conversion_logs twoPending
     ++ auditRows (curdate twoPending) (snd raceRun))%list
  /\ postback_history (snd (fst raceRun))
     = (postback_history twoPending ++ attemptRows (snd raceRun))%list
  /\ curdate (snd (fst raceRun)) = curdate twoPending
  /\ lastDailyRun (snd (fst raceRun)) = lastDailyRun twoPending
  /\ (cached_conversions (snd (fst raceRun))
      = (cached_conversions twoPending
         ++ arrived arrivesDuringFetch 0 (steps (snd raceRun)))%list
      \/ exists k n,
           clearStep (snd raceRun) = Some k
           /\ clears (snd raceRun) = [Returned n]
           /\ cached_conversions (snd (fst raceRun))
              = arrived arrivesDuringFetch (S k)
                        (steps (snd raceRun) - S k)).
Proof.
  apply (tables_only_grow_by_what_a_run_logs
           Timer arrivesDuringFetch twoPending (fst (fst raceRun))).
  vm_compute. reflexivity.
Defined.



(** X6. The total is read before the clear and the clear deletes the table as
    it is then: when a run clears, the total notified is that of the records
    present at the read (step [kt]), the count cleared is that of the records
    present at the clear (step [k > kt]), and the amounts of the records that
    arrived in between are deleted without having been part of the total. *)
Theorem records_arriving_before_the_clear_are_cleared_unreported :
  forall p env w o w' evs n,
    run (engine p) env w = (o, w', evs) ->
    In (Returned n) (clears evs) ->
    exists kt k total,
      readStep evs = Some kt /\ clearStep evs = Some k /\ kt < k
      /\ In (EvGetGlobalCachedTotal (Returned total)) evs
      /\ total = sumAmounts (cached_conversions w ++ arrived env 0 (S kt))
      /\ n = length (cached_conversions w ++ arrived env 0 (S k))%list
      /\ sumAmounts (cached_conversions w ++ arrived env 0 (S k))
         = (total + sumAmounts (arrived env (S kt) (k - kt)))%Z.
Proof.
  intros p env w o w' evs n H Hin. destruct w as [c l h d r0].
  destruct p; exec H; leaf H; pick_event.
  all: do 3 eexists; split; [reflexivity |]; split; [reflexivity |];
    split; [lia |]; split; [find_in |].
  all: split; [f_equal; same_arrivals |].
  all: split; [f_equal; same_arrivals |].
  all: cbv [arrived seq map concat Nat.sub]; cbn [cached_conversions];
    rewrite ?sumAmounts_app; cbn [sumAmounts fold_right]; lia.
Qed.

Lemma records_arriving_before_the_clear_are_cleared_unreported_witness :
  exists kt k total,
    readStep (snd raceRun) = Some kt /\ clearStep (snd raceRun) = Some k
    /\ kt < k
    /\ In (EvGetGlobalCachedTotal (Returned total)) (snd raceRun)
    /\ total = sumAmounts (cached_conversions twoPending
                           ++ arrived arrivesDuringFetch 0 (S kt))
    /\ 3 = length (cached_conversions twoPending
                   ++ arrived arrivesDuringFetch 0 (S k))%list
    /\ sumAmounts (cached_conversions twoPending
                   ++ arrived arrivesDuringFetch 0 (S k))
       = (total + sumAmounts (arrived arrivesDuringFetch (S kt) (k - kt)))%Z.
Proof.
  apply (records_arriving_before_the_clear_are_cleared_unreported
           Timer arrivesDuringFetch twoPending
           (fst (fst raceRun)) (snd (fst raceRun)) (snd raceRun) 3).
  - vm_compute. reflexivity.
  - vm_compute. left. reflexivity.
Defined.

(* ===================================================================== *)
(** ** The timer path *)
(* ===================================================================== *)

(** The same unfolding in the goal, following the answers of the environment
    that the hypotheses record. *)
Ltac step_goal :=
  cbv beta iota zeta delta
      [try_catch bind ret throw getNow getLastDailyRun setLastDailyRun getPool
       getGlobalCachedTotal selectLatestClickid countLogsToday logConversion
       logPostback clearAllCachedConversions fetch responseTextOf storeCall
       storeLog arrive set_cached set_logs set_history set_lastDailyRun
       cached_conversions conversion_logs postback_history curdate
       lastDailyRun fst snd steps snoc negb andb].

Ltac see_through :=
  cbn [afterSteps storeFault arrivals network now Nat.add].

Ltac follow :=
  match goal with
  | E : storeFault ?e ?k = _
    |- context [match storeFault ?e ?k with _ => _ end] => rewrite E
  | E : network ?e ?k ?u = _
    |- context [match network ?e ?k ?u with _ => _ end] => rewrite E
  | E : now ?e = _ |- context [match now ?e with _ => _ end] => rewrite E
  | E : response_ok ?st = _ |- context [response_ok ?st] => rewrite E
  | Hle : (?t <= 0)%Z |- context [(?t <=? 0)%Z] =>
      rewrite (proj2 (Z.leb_le t 0) Hle)
  | Hgt : (0 < ?t)%Z |- context [(?t <=? 0)%Z] =>
      rewrite (proj2 (Z.leb_gt t 0) Hgt)
  | Hlt : 0 < ?c |- context [(0 <? ?c)%nat] =>
      rewrite (proj2 (Nat.ltb_lt 0 c) Hlt)
  | Hge : ?c <= 0 |- context [(0 <? ?c)%nat] =>
      rewrite (proj2 (Nat.ltb_ge 0 c) Hge)
  end.

Ltac rerun :=
  unfold run, engine, Scheduler.executeDailyPostback,
    CronDailyPostback.executeDailyPostback,
    CronDailyPostback.checkIfAlreadyRanToday,
    ManualDailyPostback.executeDailyPostback,
    ForceDailyCheck.executeForcedDailyPostback;
  step_goal; see_through; repeat (follow; step_goal; see_through).

(** X9. In its window (23:59 New York time) and with no marker for the date,
    [checkAndRunDailyPostback] sets the marker to the date, logs
    [daily_auto_trigger], and its result, store and remaining log are those
    of the timer engine run from there: the engine's result is returned as it
    is, whatever it is. *)
Theorem timer_path_runs_the_engine :
  forall env w nyTime o w' evs,
    run Scheduler.checkAndRunDailyPostback env w = (o, w', evs) ->
    now env = Returned nyTime ->
    Scheduler.sameDate (lastDailyRun w) (toDateString nyTime) = false ->
    getHours nyTime = 23 ->
    getMinutes nyTime = 59 ->
    exists evs1,
      evs = EvLogConversion (Scheduler.daily_auto_trigger nyTime)
                            (accepted env 0) :: evs1
      /\ run (engine Timer) (afterSteps 1 env)
             {| cached_conversions :=
                  (cached_conversions w ++ arrivals env 0)%list;
                conversion_logs :=
                  (conversion_logs w
                   ++ (if accepted env 0
                       then [{| log_data := Scheduler.daily_auto_trigger nyTime;
                                log_date := curdate w |}]
                       else []))%list;
                postback_history := postback_history w;
                curdate := curdate w;
                lastDailyRun := Some (toDateString nyTime) |}
         = (o, w', evs1).
Proof.
  intros env w nyTime o w' evs H Hnow Hfresh Hh Hm.
  destruct w as [c l h d r]. cbn [lastDailyRun] in Hfresh.
  unfold_engines H. step H. rewrite Hnow in H. step H.
  rewrite Hfresh, Hh, Hm in H. cbn [Nat.eqb] in H. step H.
  repeat (branch H; step H).
  all: leaf H; eexists; (split; [reflexivity |]).
  all: cbn [cached_conversions conversion_logs postback_history curdate].
  all: rerun.
  all: reflexivity.
Qed.

Lemma timer_path_runs_the_engine_witness :
  exists evs1,
    snd timerCalmRun
    = EvLogConversion (Scheduler.daily_auto_trigger jan9) true :: evs1
    /\ run (engine Timer) (afterSteps 1 (environment jan9 [] ok200))
           {| cached_conversions := cached_conversions onePending;
              conversion_logs :=
                [{| log_data := Scheduler.daily_auto_trigger jan9;
                    log_date := 9 |}];
              postback_history := [];
              curdate := 9;
              lastDailyRun := Some "Tue Jan 09 2024" |}
       = (fst (fst timerCalmRun), snd (fst timerCalmRun), evs1).
Proof.
  apply (timer_path_runs_the_engine
           (environment jan9 [] ok200) onePending jan9
           (fst (fst timerCalmRun)) (snd (fst timerCalmRun))
           (snd timerCalmRun)).
  - vm_compute. reflexivity.
  - reflexivity.
  - reflexivity.
  - reflexivity.
  - reflexivity.
Defined.

(** X7. Outside its minute, or with the marker at the date, the timer entry
    point does nothing: no store or network call, the store and the marker
    as they were, and a result [{skipped: true, reason}] whose reason is
    [Already ran today] when the marker is at the date (also at 23:59) and
    the time-window text with the padded minutes otherwise. *)
Theorem timer_path_skips_outside_its_window :
  forall env w nyTime,
    now env = Returned nyTime ->
    Scheduler.sameDate (lastDailyRun w) (toDateString nyTime) = true
    \/ (getHours nyTime =? 23)%nat && (getMinutes nyTime =? 59)%nat = false ->
    exists why,
      run Scheduler.checkAndRunDailyPostback env w
      = (Returned {| success := None; message := None; totalAmount := None;
                     clearedEntries := None; clickidUsed := None;
                     error := None; skipped := Some true;
                     reason := Some why; nyTime := None |},
         w, [])
      /\ why = if Scheduler.sameDate (lastDailyRun w) (toDateString nyTime)
               then "Already ran today"
               else "Not in time window. Current NY time: "
                    ++ natToString (getHours nyTime) ++ ":"
                    ++ padStart2 (natToString (getMinutes nyTime)).
Proof.
  intros env w nyTime Hnow Hskip. destruct w as [c l h d r].
  unfold run, Scheduler.checkAndRunDailyPostback.
  cbv beta iota zeta delta [try_catch bind ret getNow getLastDailyRun fst snd].
  rewrite Hnow. cbv beta iota. cbn [lastDailyRun] in *.
  destruct (Scheduler.sameDate r (toDateString nyTime)) eqn:Hsame.
  - eexists. split; reflexivity.
  - destruct Hskip as [Hskip | Hskip]; [discriminate |].
    rewrite Hskip. cbn [negb]. eexists. split; reflexivity.
Qed.

Lemma timer_path_skips_outside_its_window_witness :
  exists why,
    run Scheduler.checkAndRunDailyPostback (environment jan9noon [] ok200)
        onePending
    = (Returned {| success := None; message := None; totalAmount := None;
                   clearedEntries := None; clickidUsed := None;
                   error := None; skipped := Some true;
                   reason := Some why; nyTime := None |},
       onePending, [])
    /\ why = "Not in time window. Current NY time: 12:05".
Proof.
  apply (timer_path_skips_outside_its_window
           (environment jan9noon [] ok200) onePending jan9noon).
  - reflexivity.
  - right. reflexivity.
Defined.

(** X8. When the New York time cannot be computed the timer entry point does
    not throw and does not run the engine: it makes one [logConversion] call
    ([daily_scheduler_error]), leaves the marker as it was, and returns
    [{success: false, error}]. *)
Theorem timer_path_fails_closed_without_clock :
  forall env w msg,
    now env = Thrown msg ->
    run Scheduler.checkAndRunDailyPostback env w
    = (Returned {| success := Some false; message := None;
                   totalAmount := None; clearedEntries := None;
                   clickidUsed := None; error := Some msg;
                   skipped := None; reason := None; nyTime := None |},
       {| cached_conversions := (cached_conversions w ++ arrivals env 0)%list;
          conversion_logs :=
            (conversion_logs w
             ++ (if accepted env 0
                 then [{| log_data := Scheduler.daily_scheduler_error msg;
                          log_date := curdate w |}]
                 else []))%list;
          postback_history := postback_history w;
          curdate := curdate w;
          lastDailyRun := lastDailyRun w |},
       [EvLogConversion (Scheduler.daily_scheduler_error msg)
                        (accepted env 0)]).
Proof.
  intros env w msg Hnow. destruct w as [c l h d r].
  unfold run, Scheduler.checkAndRunDailyPostback.
  step_goal. rewrite Hnow. step_goal. reflexivity.
Qed.

Lemma timer_path_fails_closed_without_clock_witness :
  run Scheduler.checkAndRunDailyPostback noClock onePending
  = (Returned {| success := Some false; message := None;
                 totalAmount := None; clearedEntries := None;
                 clickidUsed := None;
                 error := Some "Invalid time zone specified: America/New_York";
                 skipped := None; reason := None; nyTime := None |},
     {| cached_conversions := cached_conversions onePending;
        conversion_logs :=
          [{| log_data :=
                Scheduler.daily_scheduler_error
                  "Invalid time zone specified: America/New_York";
              log_date := 9 |}];
        postback_history := [];
        curdate := 9;
        lastDailyRun := None |},
     [EvLogConversion
        (Scheduler.daily_scheduler_error
           "Invalid time zone specified: America/New_York") true]).
Proof.
  apply (timer_path_fails_closed_without_clock
           noClock onePending
           "Invalid time zone specified: America/New_York").
  reflexivity.
Defined.

(* ===================================================================== *)
(** ** The three routes *)
(* ===================================================================== *)

Ltac unfold_routes H :=
  unfold run, CronRoute.handler, ManualRoute.handler, ForceRoute.handler,
    CronDailyPostback.executeDailyPostback,
    CronDailyPostback.checkIfAlreadyRanToday,
    ManualDailyPostback.executeDailyPostback,
    ForceDailyCheck.executeForcedDailyPostback in H.

Ltac step_route H :=
  cbv beta iota zeta delta
      [try_catch bind ret throw getNow getLastDailyRun setLastDailyRun getPool
       getGlobalCachedTotal selectLatestClickid countLogsToday logConversion
       logPostback clearAllCachedConversions fetch responseTextOf storeCall
       storeLog arrive set_cached set_logs set_history set_lastDailyRun
       cached_conversions conversion_logs postback_history curdate
       lastDailyRun fst snd steps snoc negb andb
       newDateISO initializeDatabase] in H.

(** X10. The cron route always answers.  Without the user agent
    [vercel-cron/1.0] it answers 401 and touches nothing; when
    [initializeDatabase] throws it answers 500 with [{success: false, error}]
    after one [cron_error] entry, and the engine is not run; otherwise it logs
    [cron_daily_trigger], runs the cron engine, and answers 200 with the
    engine's result spread over [{success: true}], so that [success] is the
    engine's. *)
Theorem cron_route_answers :
  forall host req env w o w' evs,
    run (CronRoute.handler host req) env w = (o, w', evs) ->
    exists resp,
      o = Returned resp
      /\ if strictEquals (user_agent req) "vercel-cron/1.0" then
           match initFault host with
           | Some msg =>
               status resp = 500
               /\ fields (json resp)
                  = {| success := Some false; message := None;
                       totalAmount := None; clearedEntries := None;
                       clickidUsed := None; error := Some msg;
                       skipped := None; reason := None; nyTime := None |}
               /\ evs = [EvLogConversion (CronRoute.cron_error msg)
                                         (accepted env 0)]
               /\ cached_conversions w'
                  = (cached_conversions w ++ arrivals env 0)%list
           | None =>
               status resp = 200
               /\ exists result evs1,
                    evs = EvLogConversion
                            (CronRoute.cron_daily_trigger
                               (isoStringNow host 0))
                            (accepted env 0) :: evs1
                    /\ run (engine Cron) (afterSteps 1 env)
                           {| cached_conversions :=
                                (cached_conversions w ++ arrivals env 0)%list;
                              conversion_logs :=
                                (conversion_logs w
                                 ++ (if accepted env 0
                                     then [{| log_data :=
                                                CronRoute.cron_daily_trigger
                                                  (isoStringNow host 0);
                                              log_date := curdate w |}]
                                     else []))%list;
                              postback_history := postback_history w;
                              curdate := curdate w;
                              lastDailyRun := lastDailyRun w |}
                       = (Returned result, w', evs1)
                    /\ success (fields (json resp)) = success result
                    /\ fields (json resp)
                       = spread {| success := Some true; message := None;
                                   totalAmount := None; clearedEntries := None;
                                   clickidUsed := None; error := None;
                                   skipped := None; reason := None;
                                   nyTime := None |}
                                result
                    /\ timestamp (json resp)
                       = Some (isoStringNow host (steps evs))
           end
         else
           status resp = 401 /\ evs = [] /\ w' = w
           /\ fields (json resp)
              = {| success := None; message := None; totalAmount := None;
                   clearedEntries := None; clickidUsed := None;
                   error := Some "Unauthorized - Not a Vercel Cron request";
                   skipped := None; reason := None; nyTime := None |}.
Proof.
  intros host req env w o w' evs H. destruct w as [c l h d r].
  unfold_routes H. step_route H.
  destruct (strictEquals (user_agent req) "vercel-cron/1.0").
  - step_route H. destruct (initFault host) as [msg |].
    + step_route H. leaf H. eexists. split; [reflexivity |].
      repeat split; reflexivity.
    + step_route H. repeat (branch H; step_route H).
      all: leaf H; eexists; (split; [reflexivity |]);
        (split; [reflexivity |]); do 2 eexists;
        (split; [reflexivity |]).
      all: cbn [cached_conversions conversion_logs postback_history curdate
                  lastDailyRun];
        split; [rerun; reflexivity | repeat split; reflexivity].
  - step_route H. leaf H. eexists. split; [reflexivity |].
    repeat split; reflexivity.
Qed.

Lemma cron_route_answers_witness :
  exists resp,
    fst (fst cronRouteRun) = Returned resp
    /\ status resp = 200
    /\ exists result evs1,
         snd cronRouteRun
         = EvLogConversion
             (CronRoute.cron_daily_trigger "2024-01-10T04:59:07.000Z") true
           :: evs1
         /\ run (engine Cron) (afterSteps 1 (environment jan9 [] ok200))
                {| cached_conversions := cached_conversions onePending;
                   conversion_logs :=
                     [{| log_data :=
                           CronRoute.cron_daily_trigger
                             "2024-01-10T04:59:07.000Z";
                         log_date := 9 |}];
                   postback_history := [];
                   curdate := 9;
                   lastDailyRun := None |}
            = (Returned result, snd (fst cronRouteRun), evs1)
         /\ success (fields (json resp)) = success result
         /\ fields (json resp)
            = spread {| success := Some true; message := None;
                        totalAmount := None; clearedEntries := None;
                        clickidUsed := None; error := None;
                        skipped := None; reason := None; nyTime := None |}
                     result
         /\ timestamp (json resp) = Some "2024-01-10T04:59:07.000Z".
Proof.
  apply (cron_route_answers
           upHost fromVercelCron (environment jan9 [] ok200) onePending
           (fst (fst cronRouteRun)) (snd (fst cronRouteRun))
           (snd cronRouteRun)).
  vm_compute. reflexivity.
Defined.

(** X11. The manual route always answers.  A method other than POST gets 405
    and touches nothing; a POST logs [manual_trigger_start], runs the manual
    engine, and answers with the engine's result under [triggered: true],
    with status 200 when the result has [success: true] and 500 otherwise. *)
Theorem manual_route_answers :
  forall host req env w o w' evs,
    run (ManualRoute.handler host req) env w = (o, w', evs) ->
    exists resp,
      o = Returned resp
      /\ if String.eqb (method req) "POST" then
           exists result evs1,
             evs = EvLogConversion ManualRoute.manual_trigger_start
                                   (accepted env 0) :: evs1
             /\ run (engine Manual) (afterSteps 1 env)
                    {| cached_conversions :=
                         (cached_conversions w ++ arrivals env 0)%list;
                       conversion_logs :=
                         (conversion_logs w
                          ++ (if accepted env 0
                              then [{| log_data :=
                                         ManualRoute.manual_trigger_start;
                                       log_date := curdate w |}]
                              else []))%list;
                       postback_history := postback_history w;
                       curdate := curdate w;
                       lastDailyRun := lastDailyRun w |}
                = (Returned result, w', evs1)
             /\ resp = {| status := statusOf (success result);
                          json := {| triggered := Some true; forced := None;
                                     timestamp :=
                                       Some (isoStringNow host (steps evs));
                                     timezone := None;
                                     fields := result |} |}
         else
           evs = [] /\ w' = w
           /\ resp = {| status := 405;
                        json := {| triggered := None; forced := None;
                                   timestamp := None; timezone := None;
                                   fields :=
                                     {| success := None;
                                        message := Some "Method not allowed";
                                        totalAmount := None;
                                        clearedEntries := None;
                                        clickidUsed := None; error := None;
                                        skipped := None; reason := None;
                                        nyTime := None |} |} |}.
Proof.
  intros host req env w o w' evs H. destruct w as [c l h d r].
  unfold_routes H. destruct (String.eqb (method req) "POST").
  - step_route H. repeat (branch H; step_route H).
    all: leaf H; eexists; (split; [reflexivity |]); do 2 eexists;
      (split; [reflexivity |]).
    all: cbn [cached_conversions conversion_logs postback_history curdate
                lastDailyRun];
      split; [rerun; reflexivity | reflexivity].
  - step_route H. leaf H. eexists. split; [reflexivity |].
    repeat split; reflexivity.
Qed.

Lemma manual_route_answers_witness :
  exists resp,
    fst (fst manualRouteRun) = Returned resp
    /\ exists result evs1,
         snd manualRouteRun
         = EvLogConversion ManualRoute.manual_trigger_start true :: evs1
         /\ run (engine Manual) (afterSteps 1 (environment jan9 [] ok200))
                {| cached_conversions := cached_conversions onePending;
                   conversion_logs :=
                     [{| log_data := ManualRoute.manual_trigger_start;
                         log_date := 9 |}];
                   postback_history := [];
                   curdate := 9;
                   lastDailyRun := None |}
            = (Returned result, snd (fst manualRouteRun), evs1)
         /\ resp = {| status := statusOf (success result);
                      json := {| triggered := Some true; forced := None;
                                 timestamp := Some "2024-01-10T04:59:07.000Z";
                                 timezone := None;
                                 fields := result |} |}.
Proof.
  apply (manual_route_answers
           upHost post (environment jan9 [] ok200) onePending
           (fst (fst manualRouteRun)) (snd (fst manualRouteRun))
           (snd manualRouteRun)).
  vm_compute. reflexivity.
Defined.

(** X12. The force route always answers.  A method other than POST gets 405
    and touches nothing; when [initializeDatabase] throws the answer is 500
    with [{error, message: 'Failed to force daily check'}] after one
    [admin_force_check_error] entry, and the engine is not run; otherwise the
    route logs [admin_force_daily_check], runs the forced engine, and answers
    with its result under [forced: true], with status 200 when the result has
    [success: true] and 500 otherwise. *)
Theorem force_route_answers :
  forall host req env w o w' evs,
    run (ForceRoute.handler host req) env w = (o, w', evs) ->
    exists resp,
      o = Returned resp
      /\ if String.eqb (method req) "POST" then
           match initFault host with
           | Some msg =>
               evs = [EvLogConversion (ForceRoute.admin_force_check_error msg)
                                      (accepted env 0)]
               /\ cached_conversions w'
                  = (cached_conversions w ++ arrivals env 0)%list
               /\ resp = {| status := 500;
                            json := {| triggered := None; forced := None;
                                       timestamp := None; timezone := None;
                                       fields :=
                                         {| success := None;
                                            message :=
                                              Some "Failed to force daily check";
                                            totalAmount := None;
                                            clearedEntries := None;
                                            clickidUsed := None;
                                            error := Some msg;
                                            skipped := None; reason := None;
                                            nyTime := None |} |} |}
           | None =>
               exists result evs1,
                 evs = EvLogConversion ForceRoute.admin_force_daily_check
                                       (accepted env 0) :: evs1
                 /\ run (engine Forced) (afterSteps 1 env)
                        {| cached_conversions :=
                             (cached_conversions w ++ arrivals env 0)%list;
                           conversion_logs :=
                             (conversion_logs w
                              ++ (if accepted env 0
                                  then [{| log_data :=
                                             ForceRoute.admin_force_daily_check;
                                           log_date := curdate w |}]
                                  else []))%list;
                           postback_history := postback_history w;
                           curdate := curdate w;
                           lastDailyRun := lastDailyRun w |}
                    = (Returned result, w', evs1)
                 /\ resp = {| status := statusOf (success result);
                              json := {| triggered := None;
                                         forced := Some true;
                                         timestamp :=
                                           Some (isoStringNow host (steps evs));
                                         timezone := None;
                                         fields := result |} |}
           end
         else
           evs = [] /\ w' = w
           /\ resp = {| status := 405;
                        json := {| triggered := None; forced := None;
                                   timestamp := None; timezone := None;
                                   fields :=
                                     {| success := None;
                                        message := Some "Method not allowed";
                                        totalAmount := None;
                                        clearedEntries := None;
                                        clickidUsed := None; error := None;
                                        skipped := None; reason := None;
                                        nyTime := None |} |} |}.
Proof.
  intros host req env w o w' evs H. destruct w as [c l h d r].
  unfold_routes H. destruct (String.eqb (method req) "POST").
  - step_route H. destruct (initFault host) as [msg |].
    + step_route H. leaf H. eexists. split; [reflexivity |].
      repeat split; reflexivity.
    + step_route H. repeat (branch H; step_route H).
      all: leaf H; eexists; (split; [reflexivity |]); do 2 eexists;
        (split; [reflexivity |]).
      all: cbn [cached_conversions conversion_logs postback_history curdate
                  lastDailyRun];
        split; [rerun; reflexivity | reflexivity].
  - step_route H. leaf H. eexists. split; [reflexivity |].
    repeat split; reflexivity.
Qed.

Lemma force_route_answers_witness :
  exists resp,
    fst (fst forceRouteDownRun) = Returned resp
    /\ snd forceRouteDownRun
       = [EvLogConversion
            (ForceRoute.admin_force_check_error "connect ECONNREFUSED") true]
    /\ cached_conversions (snd (fst forceRouteDownRun))
       = cached_conversions onePending
    /\ resp = {| status := 500;
                 json := {| triggered := None; forced := None;
                            timestamp := None; timezone := None;
                            fields :=
                              {| success := None;
                                 message := Some "Failed to force daily check";
                                 totalAmount := None;
                                 clearedEntries := None;
                                 clickidUsed := None;
                                 error := Some "connect ECONNREFUSED";
                                 skipped := None; reason := None;
                                 nyTime := None |} |} |}.
Proof.
  apply (force_route_answers
           downHost post (environment jan9 [] ok200) onePending
           (fst (fst forceRouteDownRun)) (snd (fst forceRouteDownRun))
           (snd forceRouteDownRun)).
  vm_compute. reflexivity.
Defined.

(** X13. A failed notification does not change the status of the cron route:
    it answers 200, with [success: false] and the error in the body. *)
Theorem cron_route_answers_200_on_failed_notification :
  forall host req env w o w' evs url r msg,
    run (CronRoute.handler host req) env w = (o, w', evs) ->
    In (url, r) (fetches evs) ->
    delivered r = Thrown msg ->
    exists resp,
      o = Returned resp
      /\ status resp = 200
      /\ success (fields (json resp)) = Some false
      /\ error (fields (json resp)) = Some msg.
Proof.
  intros host req env w o w' evs url r msg H Hin Hd.
  destruct w as [c l h d r0].
  unfold_routes H. step_route H.
  destruct (strictEquals (user_agent req) "vercel-cron/1.0");
    step_route H;
    [destruct (initFault host); step_route H |].
  all: repeat (branch H; step_route H).
  all: leaf H; pick_event; classify.
  all: eexists; repeat split; reflexivity.
Qed.

Lemma cron_route_answers_200_on_failed_notification_witness :
  exists resp,
    fst (fst cronRouteTimedOutRun) = Returned resp
    /\ status resp = 200
    /\ success (fields (json resp)) = Some false
    /\ error (fields (json resp))
       = Some "network timeout at: https://clks.trackthisclicks.com/postback".
Proof.
  apply (cron_route_answers_200_on_failed_notification
           upHost fromVercelCron (environment jan9 [] timedOut) tenDollars
           (fst (fst cronRouteTimedOutRun)) (snd (fst cronRouteTimedOutRun))
           (snd cronRouteTimedOutRun) xyz789Url timedOut).
  - vm_compute. reflexivity.
  - vm_compute. left. reflexivity.
  - reflexivity.
Defined.

(** X14. On the manual and force routes a failed notification gives status
    500, with [success: false] and the error in the body. *)
Theorem admin_routes_answer_500_on_failed_notification :
  forall host req env w o w' evs url r msg,
    run (ManualRoute.handler host req) env w = (o, w', evs)
    \/ run (ForceRoute.handler host req) env w = (o, w', evs) ->
    In (url, r) (fetches evs) ->
    delivered r = Thrown msg ->
    exists resp,
      o = Returned resp
      /\ status resp = 500
      /\ success (fields (json resp)) = Some false
      /\ error (fields (json resp)) = Some msg.
Proof.
  intros host req env w o w' evs url r msg H Hin Hd.
  destruct w as [c l h d r0].
  destruct H as [H | H]; unfold_routes H;
    destruct (String.eqb (method req) "POST"); step_route H.
  3: destruct (initFault host); step_route H.
  all: repeat (branch H; step_route H).
  all: leaf H; pick_event; classify.
  all: eexists; repeat split; reflexivity.
Qed.

Lemma admin_routes_answer_500_on_failed_notification_witness :
  exists resp,
    fst (fst forceRouteTimedOutRun) = Returned resp
    /\ status resp = 500
    /\ success (fields (json resp)) = Some false
    /\ error (fields (json resp))
       = Some "network timeout at: https://clks.trackthisclicks.com/postback".
Proof.
  apply (admin_routes_answer_500_on_failed_notification
           upHost post (environment jan9 [] timedOut) tenDollars
           (fst (fst forceRouteTimedOutRun)) (snd (fst forceRouteTimedOutRun))
           (snd forceRouteTimedOutRun) xyz789Url timedOut).
  - right. vm_compute. reflexivity.
  - vm_compute. left. reflexivity.
  - reflexivity.
Defined.

(* ===================================================================== *)
(** ** What the engines read *)
(* ===================================================================== *)

(** X15. The timer, manual and forced engines read nothing but the pending
    table: on two stores with the same pending records, whatever their audit
    logs, attempt histories, dates and markers, a run gives the same result,
    makes the same calls with the same answers, and leaves the same pending
    records.  A settlement logged today stops none of them. *)
Theorem only_the_cron_engine_reads_the_past :
  forall p env w1 w2 o w1' evs,
    p <> Cron ->
    cached_conversions w1 = cached_conversions w2 ->
    run (engine p) env w1 = (o, w1', evs) ->
    exists w2',
      run (engine p) env w2 = (o, w2', evs)
      /\ cached_conversions w2' = cached_conversions w1'.
Proof.
  intros p env w1 w2 o w1' evs Hp Hc H.
  destruct w1 as [c l h d r], w2 as [c2 l2 h2 d2 r2].
  cbn [cached_conversions] in Hc. subst c2.
  destruct p; [| congruence | |]; exec H; leaf H; eexists.
  all: split; [rerun; reflexivity | reflexivity].
Qed.

Lemma only_the_cron_engine_reads_the_past_witness :
  exists w2',
    forcedAgainRun = (fst (fst forcedFreshRun), w2', snd forcedFreshRun)
    /\ cached_conversions w2' = cached_conversions (snd (fst forcedFreshRun)).
Proof.
  apply (only_the_cron_engine_reads_the_past
           Forced (environment jan9 [] ok200) onePending settledBefore
           (fst (fst forcedFreshRun)) (snd (fst forcedFreshRun))
           (snd forcedFreshRun)).
  - discriminate.
  - reflexivity.
  - vm_compute. reflexivity.
Defined.

(** The audit log through a run of an engine. *)
Lemma audit_log_grows :
  forall p env w o w' evs,
    run (engine p) env w = (o, w', evs) ->
    conversion_logs w'
    = (conversion_logs w ++ auditRows (curdate w) evs)%list
    /\ curdate w' = curdate w.
Proof.
  intros p env w o w' evs H. destruct w as [c l h d r0].
  destruct p; exec H; leaf H.
  all: split; [| reflexivity].
  all: unfold auditRows;
    cbn [logged flat_map fst snd conversion_logs curdate app];
    rewrite <- ?app_assoc, ?app_nil_r; reflexivity.
Qed.

(** An entry of today stays in the audit log through a run. *)
Lemma logged_today_is_kept :
  forall p env w o w' evs tags,
    run (engine p) env w = (o, w', evs) ->
    loggedToday tags w -> loggedToday tags w'.
Proof.
  intros p env w o w' evs tags H (e & Hin & Hd & Ht).
  destruct (audit_log_grows _ _ _ _ _ _ H) as (Hl & Hc).
  exists e. rewrite Hl, Hc. split; [apply in_or_app; left; exact Hin |].
  split; assumption.
Qed.

(** X16. Once the audit log holds a cron success entry of today, every later
    cron invocation of the day whose check query succeeds sends nothing and
    clears nothing, however many there are and whatever arrives or fails in
    them; the entry is still there after the last. *)
Theorem cron_skips_for_the_rest_of_the_day :
  forall envs w rs w',
    runEach (engine Cron) envs w = (rs, w') ->
    loggedToday (successTags Cron) w ->
    Forall (fun r => forall msg, ~ In (EvCountRuns (Thrown msg)) (snd r)) rs ->
    Forall (fun r => fetches (snd r) = [] /\ clears (snd r) = []) rs
    /\ loggedToday (successTags Cron) w'.
Proof.
  induction envs as [| env envs IH]; intros w rs w' H Hlog Hq;
    cbn [runEach] in H.
  - injection H as <- <-. split; [constructor | exact Hlog].
  - destruct (run (engine Cron) env w) as [[o w1] evs] eqn:Hrun.
    destruct (runEach (engine Cron) envs w1) as [rs1 w2] eqn:Hrest.
    injection H as <- <-. inversion Hq as [| ? ? Hq1 Hq2]; subst.
    destruct (IH _ _ _ Hrest (logged_today_is_kept _ _ _ _ _ _ _ Hrun Hlog) Hq2)
      as [Hall Hlog'].
    split; [| exact Hlog']. constructor; [| exact Hall].
    exact (cron_skips_when_logged _ _ _ _ _ Hrun Hlog Hq1).
Qed.

Lemma cron_skips_for_the_rest_of_the_day_witness :
  Forall (fun r : Outcome Result * list Event =>
            fetches (snd r) = [] /\ clears (snd r) = [])
         (fst restOfDayRuns)
  /\ loggedToday (successTags Cron) (snd restOfDayRuns).
Proof.
  apply (cron_skips_for_the_rest_of_the_day
           [lateArrival; environment jan9 [] ok200;
            environment jan9 [] timedOut]
           (snd (fst firstSettledRun))).
  - vm_compute. reflexivity.
  - eexists. split; [vm_compute; right; left; reflexivity |].
    split; [reflexivity |]. cbn. left. reflexivity.
  - vm_compute. repeat constructor; intros msg Hin;
      repeat (destruct Hin as [Hin | Hin]; [discriminate |]); exact Hin.
Defined.
